(** * The [start] command of the indexer service

    A shallow embedding of
    [packages/indexer-service/src/commands/start.ts]: the yargs [builder]
    (option table and demanded options), the asynchronous [handler]
    (database connection, state-channel construction, free-balance query,
    the payment echo callback, the express status server), and the Node.js
    event loop that runs them.

    The asynchronous code is written in a small command language [Prog]
    (continuation-passing, one constructor per effect of the source).  The
    event loop is the function [react]: it takes the state of the process
    and one stimulus of the environment (time passing, a timer coming due,
    a promise settling, the channel client emitting an event, an HTTP
    request) and runs the JavaScript that this stimulus triggers.

    Values are modelled at their declared TypeScript types: a [BigNumber]
    by the integer it denotes, an index signature [{[addr]: BigNumber}] by
    a function, [any] by [option JsValue]. *)

From Stdlib Require Import ZArith List String Ascii Bool Lia Permutation.
From Stdlib Require Import DecimalString.
Import ListNotations.
Local Open Scope string_scope.
Local Open Scope Z_scope.

(** ** JavaScript values and strings *)

(** The values a command-line option can carry; [undefined] is [None]. *)
Inductive JsValue : Type :=
| JStr (s : string)
| JNum (n : Z).

(** [String(n)] for an integral number. *)
Definition showNum (n : Z) : string := NilZero.string_of_int (Z.to_int n).

(** Interpolation of an [any] inside a template literal. *)
Definition show (v : option JsValue) : string :=
  match v with
  | Some (JStr s) => s
  | Some (JNum n) => showNum n
  | None => "undefined"
  end.

Definition is_space (c : ascii) : bool :=
  let n := nat_of_ascii c in
  (Nat.eqb n 32 || (Nat.leb 9 n && Nat.leb n 13))%bool.

Fixpoint trimStart (s : string) : string :=
  match s with
  | EmptyString => EmptyString
  | String c r => if is_space c then trimStart r else s
  end.

Fixpoint trimEnd (s : string) : string :=
  match s with
  | EmptyString => EmptyString
  | String c r =>
      match trimEnd r with
      | EmptyString => if is_space c then EmptyString else String c EmptyString
      | r' => String c r'
      end
  end.

(** [String.prototype.trim], on ASCII white space. *)
Definition trim (s : string) : string := trimEnd (trimStart s).

(** ** The data of the collaborators *)

Definition Address : Type := string.

(** [AddressZero] of [ethers/constants]. *)
Definition AddressZero : Address := "0x0000000000000000000000000000000000000000".

Record Error : Type := mkError { message : string }.

(** The object given to [database.connect]. *)
Record DbConfig : Type := mkDbConfig {
  db_logging : option JsValue;
  db_host : option JsValue;
  db_port : option JsValue;
  db_username : option JsValue;
  db_password : option JsValue;
  db_database : option JsValue
}.

(** The connection that [database.connect] resolves to. *)
Inductive Sequelize : Type := SequelizeHandle (id : nat).

(** The object given to [stateChannels.createStateChannel]. *)
Record ChannelConfig : Type := mkChannelConfig {
  ch_sequelize : Sequelize;
  ch_mnemonic : option JsValue;
  ch_ethereumProvider : option JsValue;
  ch_connextMessaging : option JsValue;
  ch_connextNode : option JsValue;
  ch_logLevel : Z
}.

(** The attributes of the channel client that the handler reads. *)
Record Client : Type := mkClient {
  freeBalanceAddress : Address;
  publicIdentifier : string
}.

(** The result of [getFreeBalance]: an object indexed by address,
    [{ [addr: string]: BigNumber }]; by its type, indexing it yields a
    balance. *)
Definition FreeBalance : Type := Address -> Z.

(** The argument of [client.transfer]. *)
Record TransferRequest : Type := mkTransfer {
  tr_amount : Z;
  tr_recipient : string;
  tr_assetId : Address
}.

(** What [client.transfer] resolves to. *)
Record TransferResponse : Type := mkResponse { resp_paymentId : string }.

Record Meta : Type := mkMeta { sender : string }.

(** [EventPayloads.SignedTransferUnlocked], the fields the callback reads. *)
Record Payload : Type := mkPayload {
  paymentId : string;
  amount : Z;
  meta : Meta
}.

(** [EventNames] of [@connext/types] (the transfer events). *)
Inductive EventNames : Type :=
| CONDITIONAL_TRANSFER_CREATED_EVENT
| CONDITIONAL_TRANSFER_UNLOCKED_EVENT
| CONDITIONAL_TRANSFER_FAILED_EVENT.

Definition EventNames_eqb (a b : EventNames) : bool :=
  match a, b with
  | CONDITIONAL_TRANSFER_CREATED_EVENT, CONDITIONAL_TRANSFER_CREATED_EVENT => true
  | CONDITIONAL_TRANSFER_UNLOCKED_EVENT, CONDITIONAL_TRANSFER_UNLOCKED_EVENT => true
  | CONDITIONAL_TRANSFER_FAILED_EVENT, CONDITIONAL_TRANSFER_FAILED_EVENT => true
  | _, _ => false
  end.

(** [toBN] of [@connext/types], on an amount that denotes an integer: the
    [BigNumber] denoting the same integer. *)
Definition toBN (n : Z) : Z := n.

(** *** Logging *)

Inductive Level : Type := Info | Debug | Err.

Record Logger : Type := mkLogger {
  appName : string;
  component : option string
}.

Definition createLogger (name : string) : Logger :=
  {| appName := name; component := None |}.

Definition child (lg : Logger) (c : string) : Logger :=
  {| appName := appName lg; component := Some c |}.

(** *** HTTP *)

(** The methods of the requests that Node hands to an application. *)
Inductive Method : Type := GET | HEAD | POST | PUT | DELETE | OPTIONS | TRACE | PATCH.

Definition Method_eqb (a b : Method) : bool :=
  match a, b with
  | GET, GET | HEAD, HEAD | POST, POST | PUT, PUT | DELETE, DELETE
  | OPTIONS, OPTIONS | TRACE, TRACE | PATCH, PATCH => true
  | _, _ => false
  end.

Definition methodName (m : Method) : string :=
  match m with
  | GET => "GET" | HEAD => "HEAD" | POST => "POST" | PUT => "PUT"
  | DELETE => "DELETE" | OPTIONS => "OPTIONS" | TRACE => "TRACE" | PATCH => "PATCH"
  end.

Record Request : Type := mkRequest {
  req_method : Method;
  req_path : string
}.

(** The response object of express while a request is being handled. *)
Record Res : Type := mkRes {
  statusCode : Z;
  body : option string
}.

Definition res0 : Res := {| statusCode := 200; body := None |}.

Definition status (code : Z) (r : Res) : Res :=
  {| statusCode := code; body := body r |}.

Definition send (b : string) (r : Res) : Res :=
  {| statusCode := statusCode r; body := Some b |}.

(** ** Asynchronous programs *)

(** The promise-returning calls of the collaborators, indexed by the type
    of the value they resolve to. *)
Inductive Call : Type -> Type :=
| Connect (cfg : DbConfig) : Call Sequelize
| CreateStateChannel (cfg : ChannelConfig) : Call Client
| GetFreeBalance (client : Client) (assetId : Address) : Call FreeBalance
| Transfer (client : Client) (req : TransferRequest) : Call TransferResponse.

(** How a promise settles.  A promise that never settles has no outcome. *)
Inductive Outcome (X : Type) : Type :=
| Resolved (x : X)
| Rejected (e : Error).

Arguments Resolved {X} x.
Arguments Rejected {X} e.

(** One constructor per effect of [start.ts]; the last argument of a
    constructor is the rest of the function.  [Await] suspends the function
    until the promise settles; [Throw] is an exception that no enclosing
    [try] caught. *)
Inductive Prog : Type :=
| Ret
| Throw (e : Error)
| Log (lg : Logger) (lvl : Level) (msg : string) (k : Prog)
| Await (X : Type) (c : Call X) (k : Outcome X -> Prog)
| On (client : Client) (ev : EventNames) (cb : Payload -> Prog) (k : Prog)
| SetTimeout (cb : Prog) (delay : Z) (k : Prog)
| Use (format : string) (write : string -> Prog) (k : Prog)
| Get (path : string) (h : Request -> Res -> Res) (k : Prog)
| Listen (port : option JsValue) (cb : Prog) (k : Prog).

Arguments Await {X} c k.

(** [try { body } catch (e) { h e }]: an exception of [body], also one
    raised after an [await] inside it, runs the handler.  Callbacks that
    [body] only registers are not covered by the [try]. *)
Fixpoint try_catch (body : Prog) (h : Error -> Prog) : Prog :=
  match body with
  | Ret => Ret
  | Throw e => h e
  | Log lg lvl msg k => Log lg lvl msg (try_catch k h)
  | Await c k => Await c (fun o => try_catch (k o) h)
  | On cl ev cb k => On cl ev cb (try_catch k h)
  | SetTimeout cb d k => SetTimeout cb d (try_catch k h)
  | Use f w k => Use f w (try_catch k h)
  | Get p g k => Get p g (try_catch k h)
  | Listen p cb k => Listen p cb (try_catch k h)
  end.

Declare Scope prog_scope.
Delimit Scope prog_scope with prog.
Bind Scope prog_scope with Prog.

Notation "c ;; k" := (c k%prog)
  (at level 61, right associativity, only parsing) : prog_scope.

Definition info (lg : Logger) (msg : string) (k : Prog) : Prog := Log lg Info msg k.
Definition debug (lg : Logger) (msg : string) (k : Prog) : Prog := Log lg Debug msg k.
Definition error (lg : Logger) (msg : string) (k : Prog) : Prog := Log lg Err msg k.

(** [await] of a promise inside an [async] function: the function resumes
    with the value, or the rejection is thrown at the [await]. *)
Definition resume {X : Type} (f : X -> Prog) (o : Outcome X) : Prog :=
  match o with
  | Resolved x => f x
  | Rejected e => Throw e
  end.

Notation "x <- 'await' c ;; k" := (Await c (resume (fun x => k%prog)))
  (at level 61, c at next level, right associativity, only parsing) : prog_scope.

(** ** The process and its event loop *)

(** An [async] function suspended at an [await]. *)
Inductive Pending : Type :=
| Pend (X : Type) (c : Call X) (k : Outcome X -> Prog).

Arguments Pend {X} c k.

(** What the process does and what happens to it, in order. *)
Inductive Obs : Type :=
| OLog (lg : Logger) (lvl : Level) (msg : string)
| OCall (X : Type) (c : Call X)
| OSettled (X : Type) (c : Call X) (o : Outcome X)
| OSubscribe (client : Client) (ev : EventNames)
| ODelivered (ev : EventNames) (data : Payload)
| OSetTimeout (delay : Z)
| OTimeout (due : Z)
| OListen (port : option JsValue)
| OBound (port : option JsValue)
| OResponse (req : Request) (res : Res)
| OUsage (missing : list string)
| OUncaught (e : Error).

Arguments OCall {X} c.
Arguments OSettled {X} c o.

(** The HTTP server: not asked to listen yet, asked to and binding its
    port (with the callback given to [listen]), or listening.  [port] is
    what [listen] was called with, as the program gave it; the port that
    the operating system binds for it (one of its choosing when that is
    0) is not part of the state, and a [listen] that fails, whatever the
    reason, is the input [BindError] below. *)
Inductive ServerState : Type :=
| Closed
| Binding (port : option JsValue) (cb : Prog)
| Listening (port : option JsValue).

(** The process: the clock, what has been observed so far, the timers
    set (with the time each is due), the listeners of the channel client,
    the functions suspended at an [await], the express application
    (logging middleware and routes), the server, and the uncaught error
    the process ended on, if it has. *)
Record State : Type := mkState {
  now : Z;
  trace : list (Z * Obs);
  timers : list (Z * Prog);
  listeners : list (EventNames * (Payload -> Prog));
  pending : list Pending;
  middleware : list (string * (string -> Prog));
  routes : list (Method * string * (Request -> Res -> Res));
  server : ServerState;
  crashed : option Error
}.

(** The process before [handler] runs. *)
Definition init : State :=
  {| now := 0; trace := []; timers := []; listeners := []; pending := [];
     middleware := []; routes := []; server := Closed; crashed := None |}.

(** [o] is observed now. *)
Definition observe (o : Obs) (st : State) : State :=
  {| now := now st; trace := trace st ++ [(now st, o)]; timers := timers st;
     listeners := listeners st; pending := pending st;
     middleware := middleware st; routes := routes st; server := server st;
     crashed := crashed st |}.

Definition set_timers (ts : list (Z * Prog)) (st : State) : State :=
  {| now := now st; trace := trace st; timers := ts;
     listeners := listeners st; pending := pending st;
     middleware := middleware st; routes := routes st; server := server st;
     crashed := crashed st |}.

Definition set_listeners (ls : list (EventNames * (Payload -> Prog))) (st : State) : State :=
  {| now := now st; trace := trace st; timers := timers st;
     listeners := ls; pending := pending st;
     middleware := middleware st; routes := routes st; server := server st;
     crashed := crashed st |}.

Definition set_pending (ps : list Pending) (st : State) : State :=
  {| now := now st; trace := trace st; timers := timers st;
     listeners := listeners st; pending := ps;
     middleware := middleware st; routes := routes st; server := server st;
     crashed := crashed st |}.

Definition set_middleware (ms : list (string * (string -> Prog))) (st : State) : State :=
  {| now := now st; trace := trace st; timers := timers st;
     listeners := listeners st; pending := pending st;
     middleware := ms; routes := routes st; server := server st;
     crashed := crashed st |}.

Definition set_routes (rs : list (Method * string * (Request -> Res -> Res))) (st : State) : State :=
  {| now := now st; trace := trace st; timers := timers st;
     listeners := listeners st; pending := pending st;
     middleware := middleware st; routes := rs; server := server st;
     crashed := crashed st |}.

Definition set_server (s : ServerState) (st : State) : State :=
  {| now := now st; trace := trace st; timers := timers st;
     listeners := listeners st; pending := pending st;
     middleware := middleware st; routes := routes st; server := s;
     crashed := crashed st |}.

Definition set_now (t : Z) (st : State) : State :=
  {| now := t; trace := trace st; timers := timers st;
     listeners := listeners st; pending := pending st;
     middleware := middleware st; routes := routes st; server := server st;
     crashed := crashed st |}.

(** An exception nobody caught (for an [async] function, a rejection
    nobody handles) ends the process. *)
Definition crash (e : Error) (st : State) : State :=
  let st' := observe (OUncaught e) st in
  {| now := now st'; trace := trace st'; timers := timers st';
     listeners := listeners st'; pending := pending st';
     middleware := middleware st'; routes := routes st'; server := server st';
     crashed := Some e |}.

(** Runs a piece of JavaScript until it returns or suspends at an
    [await]. *)
Fixpoint exec (p : Prog) (st : State) : State :=
  match p with
  | Ret => st
  | Throw e => crash e st
  | Log lg lvl msg k => exec k (observe (OLog lg lvl msg) st)
  | Await c k => set_pending (pending st ++ [Pend c k]) (observe (OCall c) st)
  | On cl ev cb k =>
      exec k (set_listeners (listeners st ++ [(ev, cb)]) (observe (OSubscribe cl ev) st))
  | SetTimeout cb delay k =>
      exec k (set_timers (timers st ++ [(now st + delay, cb)]) (observe (OSetTimeout delay) st))
  | Use format write k =>
      exec k (set_middleware (middleware st ++ [(format, write)]) st)
  | Get path h k =>
      exec k (set_routes (routes st ++ [(GET, path, h)]) st)
  | Listen port cb k =>
      exec k (set_server (Binding port cb) (observe (OListen port) st))
  end.

(** [l] without its [i]-th element. *)
Definition remove_nth {A : Type} (i : nat) (l : list A) : list A :=
  firstn i l ++ skipn (S i) l.

(** The environment's answer to whichever call is settled. *)
Definition Answer : Type := forall X : Type, Call X -> Outcome X.

(** The stimuli of the event loop:
    - [Tick dt]: time passes;
    - [Fire i]: the runtime runs the callback of the [i]-th timer, which it
      does only once the timer is due (it promises no more about when, nor
      in what order);
    - [Settle i ans]: the promise that the [i]-th suspended function waits
      for settles the way [ans] says;
    - [Emit ev data]: the channel client emits an event;
    - [Bound], [BindError e]: the server that was asked to listen has bound
      its port, or could not;
    - [Incoming req]: an HTTP request arrives. *)
Inductive Input : Type :=
| Tick (dt : N)
| Fire (i : nat)
| Settle (i : nat) (ans : Answer)
| Emit (ev : EventNames) (data : Payload)
| Bound
| BindError (e : Error)
| Incoming (req : Request).

(** ** The parsed command line *)

(** [argv]: an object from option names to values. *)
Definition Argv : Type := list (string * JsValue).

Fixpoint lookup (key : string) (argv : Argv) : option JsValue :=
  match argv with
  | [] => None
  | (k, v) :: rest => if String.eqb k key then Some v else lookup key rest
  end.

Notation "argv .[ key ]" := (lookup key argv) (at level 1, format "argv .[ key ]").

(** ** [builder]: the options of the command *)

Inductive OptType : Type := TString | TNumber.

(** The object given to [yargs.option]. *)
Record OptionDecl : Type := mkOption {
  description : string;
  type : OptType;
  default : option JsValue
}.

(** What a yargs instance has been told: the declared options, in order,
    and the demanded ones. *)
Record Yargs : Type := mkYargs {
  options : list (string * OptionDecl);
  demanded : list string
}.

Definition yargs : Yargs := {| options := []; demanded := [] |}.

(** [y.option(key, decl)]. *)
Definition option_ (key : string) (decl : OptionDecl) (y : Yargs) : Yargs :=
  {| options := options y ++ [(key, decl)]; demanded := demanded y |}.

(** [y.demandOption(keys)]. *)
Definition demandOption (keys : list string) (y : Yargs) : Yargs :=
  {| options := options y; demanded := demanded y ++ keys |}.

Notation "y |> f" := (f y) (at level 65, left associativity, only parsing).

(** Lines 14-59. *)
Definition builder (y : Yargs) : Yargs :=
  y |> option_ "mnemonic"
         {| description := "Ethereum wallet mnemonic"; type := TString; default := None |}
    |> option_ "ethereum"
         {| description := "Ethereum node or provider URL"; type := TString; default := None |}
    |> option_ "connext-messaging"
         {| description := "Connext messaging URL"; type := TString; default := None |}
    |> option_ "connext-node"
         {| description := "Connext node URL"; type := TString; default := None |}
    |> option_ "postgres-host"
         {| description := "Postgres host"; type := TString; default := None |}
    |> option_ "postgres-port"
         {| description := "Postgres port"; type := TNumber; default := Some (JNum 5432) |}
    |> option_ "postgres-username"
         {| description := "Postgres username"; type := TString; default := None |}
    |> option_ "postgres-password"
         {| description := "Postres password"; type := TString; default := None |}
    |> option_ "postgres-database"
         {| description := "Postgres database name"; type := TString; default := None |}
    |> option_ "port"
         {| description := "Port to serve from"; type := TNumber; default := Some (JNum 7600) |}
    |> demandOption ["mnemonic"; "ethereum"; "connext-node"; "postgres-database"].

(** *** What yargs does with the declarations *)

Definition upper (c : ascii) : ascii :=
  let n := nat_of_ascii c in
  if (Nat.leb 97 n && Nat.leb n 122)%bool then ascii_of_nat (n - 32) else c.

(** The camel-case alias under which yargs also stores a hyphenated
    option: [postgres-host] is [postgresHost] too. *)
Fixpoint camelCase (s : string) : string :=
  match s with
  | EmptyString => EmptyString
  | String c r =>
      if Ascii.eqb c "-"
      then match r with
           | EmptyString => EmptyString
           | String c' r' => String (upper c') (camelCase r')
           end
      else String c (camelCase r)
  end.

Definition expand (kv : string * JsValue) : list (string * JsValue) :=
  [(fst kv, snd kv); (camelCase (fst kv), snd kv)].

(** The default of a declared option that the command line does not give. *)
Definition defaulted (given : Argv) (o : string * OptionDecl) : list (string * JsValue) :=
  match given.[fst o], default (snd o) with
  | None, Some d => [(fst o, d)]
  | _, _ => []
  end.

Definition absent (argv : Argv) (key : string) : bool :=
  match argv.[key] with
  | Some _ => false
  | None => true
  end.

(** Parsing a command line whose options [given] are keyed by their
    declared names: defaults are filled in, every option is also stored
    under its camel-case alias, and the demanded options that are still
    missing, if any, are reported instead of an [argv]. *)
Definition parse (y : Yargs) (given : Argv) : Argv + list string :=
  let argv := flat_map expand (given ++ flat_map (defaulted given) (options y)) in
  match filter (absent argv) (demanded y) with
  | [] => inl argv
  | missing => inr missing
  end.

(** A command line, by the declared options it gives (the values already
    of the declared type). *)
Record CommandLine : Type := mkCommandLine {
  cl_mnemonic : option string;
  cl_ethereum : option string;
  cl_connextMessaging : option string;
  cl_connextNode : option string;
  cl_postgresHost : option string;
  cl_postgresPort : option Z;
  cl_postgresUsername : option string;
  cl_postgresPassword : option string;
  cl_postgresDatabase : option string;
  cl_port : option Z
}.

Definition present {A : Type} (key : string) (inj : A -> JsValue) (o : option A) : Argv :=
  match o with
  | Some v => [(key, inj v)]
  | None => []
  end.

(** The options of a command line, keyed by their declared names. *)
Definition given (c : CommandLine) : Argv :=
  (present "mnemonic" JStr (cl_mnemonic c)
   ++ present "ethereum" JStr (cl_ethereum c)
   ++ present "connext-messaging" JStr (cl_connextMessaging c)
   ++ present "connext-node" JStr (cl_connextNode c)
   ++ present "postgres-host" JStr (cl_postgresHost c)
   ++ present "postgres-port" JNum (cl_postgresPort c)
   ++ present "postgres-username" JStr (cl_postgresUsername c)
   ++ present "postgres-password" JStr (cl_postgresPassword c)
   ++ present "postgres-database" JStr (cl_postgresDatabase c)
   ++ present "port" JNum (cl_port c))%list.

(** The name of an option that a command line does not give. *)
Definition lacking {A : Type} (key : string) (o : option A) : list string :=
  match o with
  | Some _ => []
  | None => [key]
  end.

(** yargs refusing the command line: the usage error, and the process
    is over. *)
Definition usage (missing : list string) : State :=
  {| now := 0; trace := [(0, OUsage missing)]; timers := []; listeners := [];
     pending := []; middleware := []; routes := []; server := Closed;
     crashed := Some (mkError "Missing required arguments") |}.

Section Start.

Local Open Scope prog_scope.

(** [formatEther] of [ethers/utils]. *)
Variable formatEther : Z -> string.

(** The line that [morgan] composes for a request and its response in the
    given format. *)
Variable morgan : string -> Request -> Res -> string.

(** What express answers when no route takes the request. *)
Variable finalhandler : Request -> Res.

(** ** [handler] *)

Definition logger : Logger := createLogger "IndexerService".

(** The rest of the [try] block once the transfer resolved (lines 120-122). *)
Definition sentBack (formattedAmount : string) (data : Payload)
    (response : TransferResponse) : Prog :=
  info logger (formattedAmount ++ " ETH sent back to " ++ sender (meta data)
                 ++ " via payment " ++ resp_paymentId response) ;;
  Ret.

(** The [catch] clause (lines 123-127). *)
Definition failedToSend (data : Payload) (e : Error) : Prog :=
  error logger ("Failed to send payment back to " ++ sender (meta data)
                  ++ ": " ++ message e) ;;
  Ret.

(** The callback given to [setTimeout] (lines 112-128). *)
Definition echo (client : Client) (amount : Z) (formattedAmount : string)
    (data : Payload) : Prog :=
  try_catch
    (info logger ("Send " ++ formattedAmount ++ " ETH back to " ++ sender (meta data)) ;;
     response <- await (Transfer client
                          {| tr_amount := amount;
                             tr_recipient := sender (meta data);
                             tr_assetId := AddressZero |}) ;;
     sentBack formattedAmount data response)
    (failedToSend data).

(** The callback given to [client.on] (lines 104-129). *)
Definition onUnlocked (client : Client) (data : Payload) : Prog :=
  let amount := toBN (amount data) in
  let formattedAmount := formatEther amount in
  (info logger ("Received payment " ++ paymentId data ++ " (" ++ formattedAmount
                  ++ " ETH) from " ++ sender (meta data)) ;;
   SetTimeout (echo client amount formattedAmount data) 1000 ;;
   Ret)%prog.

(** The route of the status endpoint (lines 144-146). *)
Definition root (_ : Request) (res : Res) : Res :=
  send "Ready to roll!" (status 200 res).

(** [serverLoggerStream._write] (lines 137-140). *)
Definition serverLogger : Logger := child logger "Server".

Definition serverLoggerStream_write (chunk : string) : Prog :=
  (debug serverLogger (trim chunk) ;; Ret)%prog.

(** The callback given to [server.listen] (lines 147-149). *)
Definition started (argv : Argv) : Prog :=
  (info serverLogger ("Started at port " ++ show argv.["port"]) ;; Ret)%prog.

(** Lines 132-149. *)
Definition serve (argv : Argv) : Prog :=
  (info logger "Waiting to receive payments..." ;;
   info serverLogger ("Start at port " ++ show argv.["port"]) ;;
   Use "tiny" serverLoggerStream_write ;;
   Get "/" root ;;
   Listen argv.["port"] (started argv) ;;
   Ret)%prog.

(** Lines 94-149: from the free balance on. *)
Definition withFreeBalance (argv : Argv) (client : Client)
    (freeBalance : FreeBalance) : Prog :=
  let balance := freeBalance (freeBalanceAddress client) in
  (info logger ("Channel free balance: " ++ formatEther balance) ;;
   info logger ("Signer address: " ++ freeBalanceAddress client) ;;
   info logger ("Free balance address: " ++ freeBalanceAddress client) ;;
   info logger ("xpub: " ++ publicIdentifier client) ;;
   On client CONDITIONAL_TRANSFER_UNLOCKED_EVENT (onUnlocked client) ;;
   serve argv)%prog.

(** Lines 85-93: from the channel client on. *)
Definition withClient (argv : Argv) (client : Client) : Prog :=
  (info logger "Created state channel" ;;
   freeBalance <- await (GetFreeBalance client AddressZero) ;;
   withFreeBalance argv client freeBalance)%prog.

Definition channelConfig (argv : Argv) (sequelize : Sequelize) : ChannelConfig :=
  {| ch_sequelize := sequelize;
     ch_mnemonic := argv.["mnemonic"];
     ch_ethereumProvider := argv.["ethereum"];
     ch_connextMessaging := argv.["connextMessaging"];
     ch_connextNode := argv.["connextNode"];
     ch_logLevel := 1 |}.

(** Lines 74-84: from the database connection on. *)
Definition withDatabase (argv : Argv) (sequelize : Sequelize) : Prog :=
  (info logger "Connected to database" ;;
   info logger "Create state channel" ;;
   client <- await (CreateStateChannel (channelConfig argv sequelize)) ;;
   withClient argv client)%prog.

Definition dbConfig (argv : Argv) : DbConfig :=
  {| db_logging := None;
     db_host := argv.["postgresHost"];
     db_port := argv.["postgresPort"];
     db_username := argv.["postgresUsername"];
     db_password := argv.["postgresPassword"];
     db_database := argv.["postgresDatabase"] |}.

(** The [handler] of the command (lines 60-150). *)
Definition handler (argv : Argv) : Prog :=
  (info logger "Starting up" ;;
   info logger "Connect to database" ;;
   sequelize <- await (Connect (dbConfig argv)) ;;
   withDatabase argv sequelize)%prog.

(** ** The event loop *)

(** The router of express.  A route handles the requests of its own
    method, and a route for GET those of method HEAD as well. *)
Definition handles (routeMethod m : Method) : bool :=
  (Method_eqb routeMethod m || (Method_eqb routeMethod GET && Method_eqb m HEAD))%bool.

Definition matches (req : Request) (r : Method * string * (Request -> Res -> Res)) : bool :=
  (handles (fst (fst r)) (req_method req) && String.eqb (snd (fst r)) (req_path req))%bool.

(** The methods a route is listed with in the automatic answer to an
    OPTIONS request, and the methods of all the routes of a path, each
    once. *)
Definition optionsOf (routeMethod : Method) : list Method :=
  match routeMethod with
  | GET => [GET; HEAD]
  | m => [m]
  end.

Definition appendMethods (l addition : list Method) : list Method :=
  fold_left (fun l m => if existsb (Method_eqb m) l then l else (l ++ [m])%list) addition l.

Definition allowed (path : string)
    (rs : list (Method * string * (Request -> Res -> Res))) : list Method :=
  fold_left (fun l r => if String.eqb (snd (fst r)) path
                        then appendMethods l (optionsOf (fst (fst r)))
                        else l)
            rs [].

(** [res.send] leaves the body out of the answer to a HEAD request. *)
Definition finish (req : Request) (res : Res) : Res :=
  match req_method req with
  | HEAD => {| statusCode := statusCode res; body := None |}
  | _ => res
  end.

(** The answer to a request: that of the first route that handles it; for
    an OPTIONS request that none handles, the list of the methods of the
    routes of its path, when there are any; that of [finalhandler]
    otherwise. *)
Definition dispatch (req : Request)
    (rs : list (Method * string * (Request -> Res -> Res))) : Res :=
  match find (matches req) rs with
  | Some r => finish req (snd r req res0)
  | None =>
      match req_method req, allowed (req_path req) rs with
      | OPTIONS, m :: ms => send (String.concat "," (map methodName (m :: ms))) res0
      | _, _ => finalhandler req
      end
  end.

(** The express application answering a request: the router answers it,
    and the logging middleware writes its line once the response is
    finished. *)
Definition respond (req : Request) (st : State) : State :=
  let res := dispatch req (routes st) in
  fold_left (fun s mw => exec (snd mw (morgan (fst mw) req res ++ String "010" EmptyString)) s)
            (middleware st)
            (observe (OResponse req res) st).

(** The emitter calling the listeners of an event. *)
Definition deliver (ev : EventNames) (data : Payload) (st : State) : State :=
  fold_left (fun s l =>
               if EventNames_eqb (fst l) ev
               then exec (snd l data) (observe (ODelivered ev data) s)
               else s)
            (listeners st) st.

(** One turn of the event loop.  A stimulus that cannot occur in the
    state (a timer that is not due, a request to a server that is not
    listening, anything after the process ended) changes nothing. *)
Definition react (st : State) (i : Input) : State :=
  match crashed st with
  | Some _ => st
  | None =>
      match i with
      | Tick dt => set_now (now st + Z.of_N dt) st
      | Fire n =>
          match nth_error (timers st) n with
          | Some (due, cb) =>
              if due <=? now st
              then exec cb (observe (OTimeout due) (set_timers (remove_nth n (timers st)) st))
              else st
          | None => st
          end
      | Settle n ans =>
          match nth_error (pending st) n with
          | Some (Pend c k) =>
              exec (k (ans _ c))
                   (observe (OSettled c (ans _ c)) (set_pending (remove_nth n (pending st)) st))
          | None => st
          end
      | Emit ev data => deliver ev data st
      | Bound =>
          match server st with
          | Binding port cb => exec cb (observe (OBound port) (set_server (Listening port) st))
          | _ => st
          end
      | BindError e =>
          match server st with
          | Binding _ _ => crash e st
          | _ => st
          end
      | Incoming req =>
          match server st with
          | Listening _ => respond req st
          | _ => st
          end
      end
  end.

Definition run (st : State) (ins : list Input) : State := fold_left react ins st.

(** The process right after yargs called [handler argv]. *)
Definition boot (argv : Argv) : State := exec (handler argv) init.

(** The command as yargs runs it: [builder], the parse of the command
    line, and [handler] on the parsed [argv] only. *)
Definition start (given : Argv) : State :=
  match parse (builder yargs) given with
  | inl argv => boot argv
  | inr missing => usage missing
  end.

(** [st] after a piece of JavaScript that made the observations [obs], set
    the timers [ts] and suspended the functions [ps]. *)
Definition extend (st : State) (obs : list Obs) (ts : list (Z * Prog))
    (ps : list Pending) : State :=
  {| now := now st; trace := (trace st ++ map (pair (now st)) obs)%list;
     timers := (timers st ++ ts)%list; listeners := listeners st;
     pending := (pending st ++ ps)%list; middleware := middleware st;
     routes := routes st; server := server st; crashed := crashed st |}.

(** What the express application of [handler] answers. *)
Definition answer (req : Request) : Res := dispatch req [(GET, "/", root)].

(** A GET request for the root path, and the answer of the status
    endpoint. *)
Definition getRoot : Request := {| req_method := GET; req_path := "/" |}.

Definition ready : Res := {| statusCode := 200; body := Some "Ready to roll!" |}.

(** ** Reading a trace *)

(** The kinds of observation that the properties below count and order. *)
Inductive Class : Type :=
| KLog
| KCallConnect | KCallCreate | KCallBalance | KCallTransfer
| KOkConnect | KOkCreate | KOkBalance | KOkTransfer
| KKoConnect | KKoCreate | KKoBalance | KKoTransfer
| KSubscribe | KDelivered | KSetTimeout | KTimeout
| KListen | KBound | KResponse | KUsage | KUncaught.

Definition classify (o : Obs) : Class :=
  match o with
  | OLog _ _ _ => KLog
  | OCall c =>
      match c with
      | Connect _ => KCallConnect
      | CreateStateChannel _ => KCallCreate
      | GetFreeBalance _ _ => KCallBalance
      | Transfer _ _ => KCallTransfer
      end
  | OSettled c (Resolved _) =>
      match c with
      | Connect _ => KOkConnect
      | CreateStateChannel _ => KOkCreate
      | GetFreeBalance _ _ => KOkBalance
      | Transfer _ _ => KOkTransfer
      end
  | OSettled c (Rejected _) =>
      match c with
      | Connect _ => KKoConnect
      | CreateStateChannel _ => KKoCreate
      | GetFreeBalance _ _ => KKoBalance
      | Transfer _ _ => KKoTransfer
      end
  | OSubscribe _ _ => KSubscribe
  | ODelivered _ _ => KDelivered
  | OSetTimeout _ => KSetTimeout
  | OTimeout _ => KTimeout
  | OListen _ => KListen
  | OBound _ => KBound
  | OResponse _ _ => KResponse
  | OUsage _ => KUsage
  | OUncaught _ => KUncaught
  end.

Definition Class_eqb (a b : Class) : bool :=
  match a, b with
  | KLog, KLog | KCallConnect, KCallConnect | KCallCreate, KCallCreate
  | KCallBalance, KCallBalance | KCallTransfer, KCallTransfer
  | KOkConnect, KOkConnect | KOkCreate, KOkCreate | KOkBalance, KOkBalance
  | KOkTransfer, KOkTransfer | KKoConnect, KKoConnect | KKoCreate, KKoCreate
  | KKoBalance, KKoBalance | KKoTransfer, KKoTransfer | KSubscribe, KSubscribe
  | KDelivered, KDelivered | KSetTimeout, KSetTimeout | KTimeout, KTimeout
  | KListen, KListen | KBound, KBound | KResponse, KResponse
  | KUsage, KUsage | KUncaught, KUncaught => true
  | _, _ => false
  end.

Definition of_class (c : Class) (x : Z * Obs) : bool := Class_eqb (classify (snd x)) c.

(** How many observations of a kind a trace has. *)
Fixpoint count (c : Class) (tr : list (Z * Obs)) : nat :=
  match tr with
  | [] => 0%nat
  | x :: rest => if of_class c x then S (count c rest) else count c rest
  end.

(** [before p q tr]: in [tr], no observation of kind [q] comes earlier
    than the first observation of kind [p]. *)
Fixpoint before (p q : Class) (tr : list (Z * Obs)) : bool :=
  match tr with
  | [] => true
  | x :: rest => if of_class p x then true else if of_class q x then false else before p q rest
  end.

(** The deliveries of an unlocked transfer to the callback, with their
    times. *)
Fixpoint deliveries (tr : list (Z * Obs)) : list (Z * Payload) :=
  match tr with
  | [] => []
  | (t, ODelivered CONDITIONAL_TRANSFER_UNLOCKED_EVENT data) :: rest =>
      (t, data) :: deliveries rest
  | _ :: rest => deliveries rest
  end.

(** The transfers submitted to the channel client, with their times. *)
Fixpoint submissions (tr : list (Z * Obs)) : list (Z * TransferRequest) :=
  match tr with
  | [] => []
  | (t, OCall c) :: rest =>
      match c with
      | Transfer _ req => (t, req) :: submissions rest
      | _ => submissions rest
      end
  | _ :: rest => submissions rest
  end.


(** The database connections asked for, each with the object given to
    [database.connect]. *)
Fixpoint connections (tr : list (Z * Obs)) : list DbConfig :=
  match tr with
  | [] => []
  | (_, OCall c) :: rest =>
      match c with
      | Connect cfg => cfg :: connections rest
      | _ => connections rest
      end
  | _ :: rest => connections rest
  end.

(** The connections that [database.connect] resolved to. *)
Fixpoint connected (tr : list (Z * Obs)) : list Sequelize :=
  match tr with
  | [] => []
  | (_, OSettled c (Resolved x)) :: rest =>
      match c in Call X return X -> list Sequelize with
      | Connect _ => fun sq => sq :: connected rest
      | _ => fun _ => connected rest
      end x
  | _ :: rest => connected rest
  end.

(** The state channels asked for, each with the object given to
    [stateChannels.createStateChannel]. *)
Fixpoint creations (tr : list (Z * Obs)) : list ChannelConfig :=
  match tr with
  | [] => []
  | (_, OCall c) :: rest =>
      match c with
      | CreateStateChannel cfg => cfg :: creations rest
      | _ => creations rest
      end
  | _ :: rest => creations rest
  end.

(** The calls of [server.listen], each with the port it was given. *)
Fixpoint listenCalls (tr : list (Z * Obs)) : list (option JsValue) :=
  match tr with
  | [] => []
  | (_, OListen port) :: rest => port :: listenCalls rest
  | _ :: rest => listenCalls rest
  end.

(** The HTTP responses sent. *)
Fixpoint responses (tr : list (Z * Obs)) : list (Request * Res) :=
  match tr with
  | [] => []
  | (_, OResponse req res) :: rest => (req, res) :: responses rest
  | _ :: rest => responses rest
  end.

(** The transfer that echoes a payment. *)
Definition requestOf (data : Payload) : TransferRequest :=
  {| tr_amount := amount data;
     tr_recipient := sender (meta data);
     tr_assetId := AddressZero |}.

(** The transfer an [async] function is waiting for, if it is one. *)
Definition transferOf (p : Pending) : option (Client * TransferRequest) :=
  match p with
  | Pend c _ =>
      match c with
      | Transfer client req => Some (client, req)
      | _ => None
      end
  end.

(** How many lines a trace has at level error. *)
Fixpoint errorLines (tr : list (Z * Obs)) : nat :=
  match tr with
  | [] => 0%nat
  | (_, OLog _ Err _) :: rest => S (errorLines rest)
  | _ :: rest => errorLines rest
  end.

(** The lines at level error are as many as the transfers rejected. *)
Definition accounted (st : State) : Prop :=
  errorLines (trace st) = count KKoTransfer (trace st).

(** Whether, by what has been observed, the start-up is over and the
    process has not ended: the free balance resolved, and no error went
    uncaught. *)
Definition upAndRunning (tr : list (Z * Obs)) : bool :=
  (negb (Nat.eqb (count KOkBalance tr) 0) && Nat.eqb (count KUncaught tr) 0)%bool.

(** The unlocked transfer that the channel client emits in one turn to a
    process that is up and running, with the time of the emission; and
    those it emits in the course of the turns [ins], from the state [st]
    on. *)
Definition arrival (st : State) (i : Input) : list (Z * Payload) :=
  match i with
  | Emit CONDITIONAL_TRANSFER_UNLOCKED_EVENT data =>
      if upAndRunning (trace st) then [(now st, data)] else []
  | _ => []
  end.

Fixpoint arrivals (st : State) (ins : list Input) : list (Z * Payload) :=
  match ins with
  | [] => []
  | i :: rest => (arrival st i ++ arrivals (react st i) rest)%list
  end.


(** ** The states of a run *)

(** What a start-up that went through learned on its way. *)
Record Boot : Type := mkBoot {
  connectedAt : Z;
  sequelize : Sequelize;
  createdAt : Z;
  client : Client;
  queriedAt : Z;
  freeBalance : FreeBalance
}.

(** The state once the only call [c] that [st] waits for has settled with
    [o] at time [t] and the function waiting for it, [k], has run on. *)
Definition next (st : State) (t : Z) {X : Type} (c : Call X)
    (k : Outcome X -> Prog) (o : Outcome X) : State :=
  exec (k o) (observe (OSettled c o) (set_pending [] (set_now t st))).

(** Waiting for the database. *)
Definition connecting (argv : Argv) : State := boot argv.

(** Waiting for the state channel, the database connected at [t1]. *)
Definition creating (argv : Argv) (t1 : Z) (sq : Sequelize) : State :=
  next (connecting argv) t1
       (Connect (dbConfig argv)) (resume (withDatabase argv))
       (Resolved sq).

(** Waiting for the free balance, the channel created at [t2]. *)
Definition querying (argv : Argv) (t1 : Z) (sq : Sequelize) (t2 : Z)
    (cl : Client) : State :=
  next (creating argv t1 sq) t2
       (CreateStateChannel (channelConfig argv sq)) (resume (withClient argv))
       (Resolved cl).

(** Start-up done: subscribed, and the server asked to listen. *)
Definition up (argv : Argv) (b : Boot) : State :=
  next (querying argv (connectedAt b) (sequelize b) (createdAt b) (client b))
       (queriedAt b)
       (GetFreeBalance (client b) AddressZero) (resume (withFreeBalance argv (client b)))
       (Resolved (freeBalance b)).

(** The three ways a start-up ends on a rejected promise. *)
Definition noDatabase (argv : Argv) (t : Z) (e : Error) : State :=
  next (connecting argv) t
       (Connect (dbConfig argv)) (resume (withDatabase argv)) (Rejected e).

Definition noChannel (argv : Argv) (t1 : Z) (sq : Sequelize) (t : Z) (e : Error) : State :=
  next (creating argv t1 sq) t
       (CreateStateChannel (channelConfig argv sq)) (resume (withClient argv))
       (Rejected e).

Definition noBalance (argv : Argv) (t1 : Z) (sq : Sequelize) (t2 : Z) (cl : Client)
    (t : Z) (e : Error) : State :=
  next (querying argv t1 sq t2 cl) t
       (GetFreeBalance cl AddressZero) (resume (withFreeBalance argv cl))
       (Rejected e).

(** The callback of [setTimeout] resumed after its [await]. *)
Definition echoed (formattedAmount : string) (data : Payload)
    (o : Outcome TransferResponse) : Prog :=
  try_catch (resume (sentBack formattedAmount data) o) (failedToSend data).

(** The timer that a delivery at time [fst d] of the payload [snd d] sets. *)
Definition timerOf (cl : Client) (d : Z * Payload) : Z * Prog :=
  (fst d + 1000,
   echo cl (toBN (amount (snd d))) (formatEther (toBN (amount (snd d)))) (snd d)).

(** The echo of a payload, waiting for its transfer. *)
Definition pendingOf (cl : Client) (data : Payload) : Pending :=
  Pend (Transfer cl (requestOf data)) (echoed (formatEther (toBN (amount data))) data).

(** The kinds of observation made once the start-up is over. *)
Definition runningClass (c : Class) : bool :=
  match c with
  | KLog | KCallTransfer | KOkTransfer | KKoTransfer | KDelivered
  | KSetTimeout | KTimeout | KBound | KResponse | KUncaught => true
  | _ => false
  end.

Definition running (x : Z * Obs) : bool := runningClass (classify (snd x)).

(** A process whose start-up [b] went through: its trace is the trace of
    the start-up followed by [rest]; [sched] are the deliveries whose timer
    is still set, [fired] the deliveries whose timer went off, each with the
    time at which it did, [waiting] the echoes whose transfer has not
    settled. *)
Record Running (argv : Argv) (b : Boot) (st : State)
    (sched : list (Z * Payload)) (fired : list ((Z * Payload) * Z))
    (waiting : list Payload) (rest : list (Z * Obs)) : Prop := {
  r_trace : trace st = (trace (up argv b) ++ rest)%list;
  r_timers : timers st = map (timerOf (client b)) sched;
  r_listeners :
    listeners st = [(CONDITIONAL_TRANSFER_UNLOCKED_EVENT, onUnlocked (client b))];
  r_pending : pending st = map (pendingOf (client b)) waiting;
  r_middleware : middleware st = [("tiny", serverLoggerStream_write)];
  r_routes : routes st = [(GET, "/", root)];
  r_rest : forallb running rest = true;
  r_perm : Permutation (deliveries rest) (map fst fired ++ sched)%list;
  r_subm : submissions rest = map (fun f => (snd f, requestOf (snd (fst f)))) fired;
  r_late : Forall (fun f => fst (fst f) + 1000 <= snd f) fired
}.

(** The states a run of [handler argv] goes through. *)
Inductive Inv (argv : Argv) (st : State) : Prop :=
| Inv_connecting (t : Z) :
    st = set_now t (connecting argv) -> Inv argv st
| Inv_creating (t1 : Z) (sq : Sequelize) (t : Z) :
    st = set_now t (creating argv t1 sq) -> Inv argv st
| Inv_querying (t1 : Z) (sq : Sequelize) (t2 : Z) (cl : Client) (t : Z) :
    st = set_now t (querying argv t1 sq t2 cl) -> Inv argv st
| Inv_noDatabase (t : Z) (e : Error) :
    st = noDatabase argv t e -> Inv argv st
| Inv_noChannel (t1 : Z) (sq : Sequelize) (t : Z) (e : Error) :
    st = noChannel argv t1 sq t e -> Inv argv st
| Inv_noBalance (t1 : Z) (sq : Sequelize) (t2 : Z) (cl : Client) (t : Z) (e : Error) :
    st = noBalance argv t1 sq t2 cl t e -> Inv argv st
| Inv_binding (b : Boot) sched fired waiting rest :
    Running argv b st sched fired waiting rest ->
    server st = Binding argv.["port"] (started argv) ->
    crashed st = None ->
    count KBound rest = 0%nat -> count KResponse rest = 0%nat ->
    count KUncaught rest = 0%nat ->
    Inv argv st
| Inv_listening (b : Boot) sched fired waiting rest :
    Running argv b st sched fired waiting rest ->
    server st = Listening argv.["port"] ->
    crashed st = None ->
    count KBound rest = 1%nat -> before KBound KResponse rest = true ->
    count KUncaught rest = 0%nat ->
    Inv argv st
| Inv_noPort (b : Boot) sched fired waiting rest (e : Error) :
    Running argv b st sched fired waiting rest ->
    server st = Binding argv.["port"] (started argv) ->
    crashed st = Some e ->
    count KBound rest = 0%nat -> count KResponse rest = 0%nat ->
    count KUncaught rest = 1%nat ->
    Inv argv st.

(** ** A concrete run, for the examples *)

Fixpoint zeros (n : nat) : string :=
  match n with
  | O => EmptyString
  | S k => String "0" (zeros k)
  end.

Fixpoint dropTrailingZeros (s : string) : string :=
  match s with
  | EmptyString => EmptyString
  | String c r =>
      match dropTrailingZeros r with
      | EmptyString => if Ascii.eqb c "0" then EmptyString else String c EmptyString
      | r' => String c r'
      end
  end.

(** An amount of wei written in ether, the way [formatEther] writes it:
    eighteen decimals, the trailing zeros dropped but for one. *)
Definition etherString (wei : Z) : string :=
  let a := Z.abs wei in
  let digits := showNum (a mod 10 ^ 18) in
  let padded := zeros (18 - String.length digits) ++ digits in
  (if wei <? 0 then "-" else EmptyString)
  ++ showNum (a / 10 ^ 18) ++ "."
  ++ match dropTrailingZeros padded with
     | EmptyString => "0"
     | f => f
     end.

(** A line in the manner of the [tiny] format of morgan. *)
Definition tinyLine (format : string) (req : Request) (res : Res) : string :=
  methodName (req_method req) ++ " " ++ req_path req ++ " "
  ++ showNum (statusCode res) ++ " - - ms".

(** The answer of express to a request that no route takes. *)
Definition notFound (req : Request) : Res :=
  {| statusCode := 404;
     body := match req_method req with
             | HEAD => None
             | m => Some ("Cannot " ++ methodName m ++ " " ++ req_path req)
             end |}.

Definition exampleCommandLine : CommandLine :=
  {| cl_mnemonic := Some "test test test";
     cl_ethereum := Some "http://localhost:8545";
     cl_connextMessaging := None;
     cl_connextNode := Some "http://localhost:8080";
     cl_postgresHost := Some "localhost";
     cl_postgresPort := None;
     cl_postgresUsername := None;
     cl_postgresPassword := None;
     cl_postgresDatabase := Some "indexer";
     cl_port := None |}.

Definition exampleArgv : Argv :=
  match parse (builder yargs) (given exampleCommandLine) with
  | inl argv => argv
  | inr _ => []
  end.

Definition exampleClient : Client :=
  {| freeBalanceAddress := "0xF00"; publicIdentifier := "xpub6E" |}.

(** Every promise resolves. *)
Definition allGood : Answer :=
  fun X c =>
    match c in Call X return Outcome X with
    | Connect _ => Resolved (SequelizeHandle 1)
    | CreateStateChannel _ => Resolved exampleClient
    | GetFreeBalance _ _ => Resolved (fun _ => 5 * 10 ^ 18)
    | Transfer _ _ => Resolved {| resp_paymentId := "0xBEEF" |}
    end.

(** Transfers are rejected. *)
Definition noFunds : Answer :=
  fun X c =>
    match c in Call X return Outcome X with
    | Connect _ => Resolved (SequelizeHandle 1)
    | CreateStateChannel _ => Resolved exampleClient
    | GetFreeBalance _ _ => Resolved (fun _ => 5 * 10 ^ 18)
    | Transfer _ _ => Rejected {| message := "insufficient funds" |}
    end.

(** A start-up that goes through, until the server listens. *)
Definition exampleStartup : list Input :=
  [Settle 0 allGood; Tick 3; Settle 0 allGood; Tick 2; Settle 0 allGood; Bound].

Definition alice : Payload :=
  {| paymentId := "0xA1"; amount := 10 ^ 18; meta := {| sender := "0xAAA" |} |}.

(** A payment outside of what a payment should be: a negative amount. *)
Definition bob : Payload :=
  {| paymentId := "0xB2"; amount := -5; meta := {| sender := "0xBBB" |} |}.

(** * Properties *)

Local Close Scope string_scope.
Local Open Scope list_scope.

(** ** What each piece of the program does *)

Ltac fields :=
  cbn [now trace timers listeners pending middleware routes server crashed
       crash extend observe set_timers set_pending set_now set_server
       set_listeners set_middleware set_routes map app].

Ltac unfold_state :=
  unfold crash, extend;
  unfold observe, set_timers, set_pending, set_now, set_server,
    set_listeners, set_middleware, set_routes;
  cbv zeta;
  cbn [now trace timers listeners pending middleware routes server crashed
       map app].

Ltac by_fields :=
  intros; match goal with |- context [exec _ ?s] => destruct s end;
  cbn; unfold_state; rewrite ?app_nil_r, <- ?app_assoc; reflexivity.

Lemma exec_echo cl amt fa data st :
  exec (echo cl amt fa data) st =
  extend st
    [OLog logger Info ("Send " ++ fa ++ " ETH back to " ++ sender (meta data))%string;
     OCall (Transfer cl (mkTransfer amt (sender (meta data)) AddressZero))]
    []
    [Pend (Transfer cl (mkTransfer amt (sender (meta data)) AddressZero)) (echoed fa data)].
Proof. by_fields. Qed.

Lemma exec_onUnlocked cl data st :
  exec (onUnlocked cl data) st =
  extend st
    [OLog logger Info ("Received payment " ++ paymentId data ++ " ("
                         ++ formatEther (amount data) ++ " ETH) from "
                         ++ sender (meta data))%string;
     OSetTimeout 1000]
    [timerOf cl (now st, data)]
    [].
Proof. by_fields. Qed.

Lemma exec_echoed_ok fa data r st :
  exec (echoed fa data (Resolved r)) st =
  extend st
    [OLog logger Info (fa ++ " ETH sent back to " ++ sender (meta data)
                         ++ " via payment " ++ resp_paymentId r)%string]
    [] [].
Proof. by_fields. Qed.

Lemma exec_echoed_ko fa data e st :
  exec (echoed fa data (Rejected e)) st =
  extend st
    [OLog logger Err ("Failed to send payment back to " ++ sender (meta data)
                        ++ ": " ++ message e)%string]
    [] [].
Proof. by_fields. Qed.

(** ** Lists and traces *)

Lemma count_app c l1 l2 : count c (l1 ++ l2) = (count c l1 + count c l2)%nat.
Proof.
  induction l1 as [|x l1 IH]; cbn [app count]; [reflexivity|].
  destruct (of_class c x); rewrite IH; reflexivity.
Qed.

Lemma before_app p q l1 l2 :
  before p q (l1 ++ l2) = (before p q l1 && (Nat.ltb 0 (count p l1) || before p q l2))%bool.
Proof.
  induction l1 as [|x l1 IH]; cbn [app count before].
  - reflexivity.
  - destruct (of_class p x); [reflexivity|].
    destruct (of_class q x); [reflexivity|]. exact IH.
Qed.

(** What [before] says: an observation of kind [q] in the trace is of kind
    [p] itself or has one of kind [p] earlier in the trace. *)
Lemma before_sound p q tr :
  before p q tr = true ->
  forall l1 x l2, tr = l1 ++ x :: l2 -> of_class q x = true ->
  of_class p x = true \/ existsb (of_class p) l1 = true.
Proof.
  intros H l1. revert tr H.
  induction l1 as [|y l1 IH]; intros tr H x l2 -> Hq; cbn [app before existsb] in *.
  - destruct (of_class p x); [left; reflexivity|]. rewrite Hq in H. discriminate.
  - destruct (of_class p y); [right; reflexivity|].
    destruct (of_class q y); [discriminate|].
    cbn [orb]. exact (IH _ H x l2 eq_refl Hq).
Qed.

Lemma deliveries_app l1 l2 : deliveries (l1 ++ l2) = deliveries l1 ++ deliveries l2.
Proof.
  induction l1 as [|[t o] l1 IH]; cbn [app deliveries]; [reflexivity|].
  destruct o; try exact IH. destruct ev; try exact IH.
  cbn [app]. rewrite IH. reflexivity.
Qed.

Lemma submissions_app l1 l2 : submissions (l1 ++ l2) = submissions l1 ++ submissions l2.
Proof.
  induction l1 as [|[t o] l1 IH]; cbn [app submissions]; [reflexivity|].
  destruct o; try exact IH. destruct c; try exact IH.
  cbn [app]. rewrite IH. reflexivity.
Qed.

Lemma remove_nth_map (A B : Type) (f : A -> B) n l :
  remove_nth n (map f l) = map f (remove_nth n l).
Proof.
  unfold remove_nth. rewrite map_app, firstn_map, skipn_map. reflexivity.
Qed.

Lemma remove_nth_perm (A : Type) n (l : list A) x :
  nth_error l n = Some x -> Permutation l (x :: remove_nth n l).
Proof.
  revert n; induction l as [|y l IH]; intros [|n] H; cbn in H; try discriminate.
  - injection H as ->. apply Permutation_refl.
  - unfold remove_nth. cbn [firstn skipn app].
    apply perm_trans with (y :: x :: remove_nth n l).
    + apply perm_skip. apply IH. exact H.
    + apply perm_swap.
Qed.


(** ** Turns of the event loop *)

Lemma react_tick st dt :
  crashed st = None -> react st (Tick dt) = set_now (now st + Z.of_N dt) st.
Proof. intros H. unfold react. rewrite H. reflexivity. Qed.

Lemma react_fire st n due cb :
  crashed st = None -> nth_error (timers st) n = Some (due, cb) -> due <= now st ->
  react st (Fire n) =
  exec cb (observe (OTimeout due) (set_timers (remove_nth n (timers st)) st)).
Proof.
  intros H E L. unfold react. rewrite H, E.
  destruct (Z.leb_spec due (now st)); [reflexivity | lia].
Qed.

Lemma react_fire_early st n due cb :
  nth_error (timers st) n = Some (due, cb) -> now st < due -> react st (Fire n) = st.
Proof.
  intros E L. unfold react. destruct (crashed st); [reflexivity|]. rewrite E.
  destruct (Z.leb_spec due (now st)); [lia | reflexivity].
Qed.

Lemma react_fire_none st n :
  nth_error (timers st) n = None -> react st (Fire n) = st.
Proof.
  intros E. unfold react. destruct (crashed st); [reflexivity|]. rewrite E. reflexivity.
Qed.

Lemma react_settle st n X (c : Call X) k ans :
  crashed st = None -> nth_error (pending st) n = Some (Pend c k) ->
  react st (Settle n ans) =
  exec (k (ans _ c))
       (observe (OSettled c (ans _ c)) (set_pending (remove_nth n (pending st)) st)).
Proof. intros H E. unfold react. rewrite H, E. reflexivity. Qed.

Lemma react_settle_none st n ans :
  nth_error (pending st) n = None -> react st (Settle n ans) = st.
Proof.
  intros E. unfold react. destruct (crashed st); [reflexivity|]. rewrite E. reflexivity.
Qed.

Lemma react_emit st ev data :
  crashed st = None -> react st (Emit ev data) = deliver ev data st.
Proof. intros H. unfold react. rewrite H. reflexivity. Qed.

Lemma react_crashed st e i : crashed st = Some e -> react st i = st.
Proof. intros H. unfold react. rewrite H. reflexivity. Qed.

(** ** The states of a run are kept by every turn *)

Lemma running_same argv b st st' sched fired waiting rest :
  Running argv b st sched fired waiting rest ->
  trace st' = trace st -> timers st' = timers st -> listeners st' = listeners st ->
  pending st' = pending st -> middleware st' = middleware st -> routes st' = routes st ->
  Running argv b st' sched fired waiting rest.
Proof.
  intros [Htr Htm Hls Hpd Hmw Hrt Hrest Hperm Hsub Hlate] H1 H2 H3 H4 H5 H6.
  constructor; congruence || assumption.
Qed.

Lemma running_step argv b st sched fired waiting rest i :
  Running argv b st sched fired waiting rest ->
  crashed st = None ->
  match i with Tick _ | Fire _ | Settle _ _ | Emit _ _ => True | _ => False end ->
  exists sched' fired' waiting' rest',
    Running argv b (react st i) sched' fired' waiting' (rest ++ rest') /\
    server (react st i) = server st /\
    crashed (react st i) = None /\
    count KBound rest' = 0%nat /\ count KResponse rest' = 0%nat /\
    count KUncaught rest' = 0%nat.
Proof.
  intros R Hcr Hi.
  pose proof R as [Htr Htm Hls Hpd Hmw Hrt Hrest Hperm Hsub Hlate].
  assert (Same : forall st', st' = st ->
            exists sched' fired' waiting' rest',
              Running argv b st' sched' fired' waiting' (rest ++ rest') /\
              server st' = server st /\ crashed st' = None /\
              count KBound rest' = 0%nat /\ count KResponse rest' = 0%nat /\
              count KUncaught rest' = 0%nat).
  { intros st' ->. exists sched, fired, waiting, []. rewrite app_nil_r.
    split; [assumption|]. repeat split; try assumption; reflexivity. }
  destruct i as [dt|n|n ans| ev data | | e | req]; try contradiction.
  - rewrite react_tick by assumption.
    exists sched, fired, waiting, []. rewrite app_nil_r.
    split; [apply running_same with (1 := R); reflexivity|].
    repeat split; try assumption; reflexivity.
  - destruct (nth_error sched n) as [[t0 data]|] eqn:E.
    + assert (Et : nth_error (timers st) n = Some (timerOf (client b) (t0, data))).
      { rewrite Htm, nth_error_map, E. reflexivity. }
      destruct (Z.le_gt_cases (t0 + 1000) (now st)) as [Hle|Hgt].
      * unfold timerOf in Et. cbn [fst snd] in Et.
        rewrite (react_fire st n _ _ Hcr Et Hle), exec_echo.
        exists (remove_nth n sched), (fired ++ [((t0, data), now st)]), (waiting ++ [data]).
        eexists.
        split; [constructor|]; fields.
        1: { rewrite Htr, <- !app_assoc. cbn [app]. reflexivity. }
        all: rewrite ?app_nil_r.
        -- rewrite Htm. apply remove_nth_map.
        -- exact Hls.
        -- rewrite Hpd, map_app. reflexivity.
        -- exact Hmw.
        -- exact Hrt.
        -- rewrite forallb_app, Hrest. reflexivity.
        -- rewrite deliveries_app. cbn [deliveries]. rewrite app_nil_r.
           rewrite map_app. cbn [map fst]. rewrite <- app_assoc. cbn [app].
           apply perm_trans with (1 := Hperm).
           apply Permutation_app_head.
           apply remove_nth_perm. exact E.
        -- rewrite submissions_app, Hsub, map_app. reflexivity.
        -- apply Forall_app. split; [exact Hlate|]. constructor; [exact Hle|constructor].
        -- repeat split; try assumption; reflexivity.
      * apply Same. apply react_fire_early with (1 := Et). cbn [timerOf fst]. lia.
    + apply Same. apply react_fire_none. rewrite Htm, nth_error_map, E. reflexivity.
  - destruct (nth_error waiting n) as [data|] eqn:E.
    + assert (Ep : nth_error (pending st) n = Some (pendingOf (client b) data)).
      { rewrite Hpd, nth_error_map, E. reflexivity. }
      unfold pendingOf in Ep. rewrite (react_settle st n _ _ _ ans Hcr Ep).
      exists sched, fired, (remove_nth n waiting).
      destruct (ans TransferResponse (Transfer (client b) (requestOf data))) as [r|e] eqn:Ea.
      * rewrite exec_echoed_ok. eexists. split; [constructor|]; fields.
        1: { rewrite Htr, <- !app_assoc. cbn [app]. reflexivity. }
        all: rewrite ?app_nil_r.
        -- exact Htm.
        -- exact Hls.
        -- rewrite Hpd. apply remove_nth_map.
        -- exact Hmw.
        -- exact Hrt.
        -- rewrite forallb_app, Hrest. reflexivity.
        -- rewrite deliveries_app. cbn [deliveries]. rewrite app_nil_r. exact Hperm.
        -- rewrite submissions_app, Hsub. cbn [submissions]. rewrite app_nil_r. reflexivity.
        -- exact Hlate.
        -- repeat split; try assumption; reflexivity.
      * rewrite exec_echoed_ko. eexists. split; [constructor|]; fields.
        1: { rewrite Htr, <- !app_assoc. cbn [app]. reflexivity. }
        all: rewrite ?app_nil_r.
        -- exact Htm.
        -- exact Hls.
        -- rewrite Hpd. apply remove_nth_map.
        -- exact Hmw.
        -- exact Hrt.
        -- rewrite forallb_app, Hrest. reflexivity.
        -- rewrite deliveries_app. cbn [deliveries]. rewrite app_nil_r. exact Hperm.
        -- rewrite submissions_app, Hsub. cbn [submissions]. rewrite app_nil_r. reflexivity.
        -- exact Hlate.
        -- repeat split; try assumption; reflexivity.
    + apply Same. apply react_settle_none. rewrite Hpd, nth_error_map, E. reflexivity.
  - rewrite react_emit by assumption. unfold deliver. rewrite Hls.
    cbn [fold_left fst snd].
    destruct ev; cbn [EventNames_eqb]; try (apply Same; reflexivity).
    rewrite exec_onUnlocked.
    exists (sched ++ [(now st, data)]), fired, waiting.
    eexists. split; [constructor|]; fields.
    1: { rewrite Htr, <- !app_assoc. cbn [app]. reflexivity. }
    all: rewrite ?app_nil_r.
    + rewrite Htm, map_app. reflexivity.
    + exact Hls.
    + exact Hpd.
    + exact Hmw.
    + exact Hrt.
    + rewrite forallb_app, Hrest. reflexivity.
    + rewrite deliveries_app. cbn [deliveries]. rewrite app_assoc.
      apply Permutation_app_tail. exact Hperm.
    + rewrite submissions_app, Hsub. cbn [submissions]. rewrite app_nil_r. reflexivity.
    + exact Hlate.
    + repeat split; try assumption; reflexivity.
Qed.

Lemma respond_eq st req :
  routes st = [(GET, "/"%string, root)] ->
  middleware st = [("tiny"%string, serverLoggerStream_write)] ->
  respond req st =
  extend st
    [OResponse req (answer req);
     OLog serverLogger Debug
       (trim (morgan "tiny" req (answer req) ++ String "010" ""))%string]
    [] [].
Proof.
  intros Hr Hm. unfold respond. rewrite Hr, Hm. cbn [fold_left fst snd].
  fold (answer req). generalize (answer req). intros res.
  destruct st; cbn; unfold_state; rewrite ?app_nil_r, <- ?app_assoc; reflexivity.
Qed.

Lemma exec_started argv st :
  exec (started argv) st =
  extend st [OLog serverLogger Info ("Started at port " ++ show argv.["port"])%string] [] [].
Proof. by_fields. Qed.

Lemma react_bound st port cb :
  crashed st = None -> server st = Binding port cb ->
  react st Bound = exec cb (observe (OBound port) (set_server (Listening port) st)).
Proof. intros H E. unfold react. rewrite H, E. reflexivity. Qed.

Lemma react_bindError st port cb e :
  crashed st = None -> server st = Binding port cb ->
  react st (BindError e) = crash e st.
Proof. intros H E. unfold react. rewrite H, E. reflexivity. Qed.

Lemma react_incoming st port req :
  crashed st = None -> server st = Listening port ->
  react st (Incoming req) = respond req st.
Proof. intros H E. unfold react. rewrite H, E. reflexivity. Qed.

Lemma react_incoming_closed st req :
  (forall port, server st <> Listening port) -> react st (Incoming req) = st.
Proof.
  intros H. unfold react. destruct (crashed st); [reflexivity|].
  destruct (server st) as [| |port]; try reflexivity. destruct (H port). reflexivity.
Qed.

Lemma exec_now p : forall st, now (exec p st) = now st.
Proof.
  induction p as [|e|lg lvl msg k IH|X c k IH|cl ev cb _ k IH|cb _ d k IH
                 |f w _ k IH|pth h k IH|port cb _ k IH];
    intros st; cbn [exec]; try rewrite IH; reflexivity.
Qed.

Lemma set_now_id st : set_now (now st) st = st.
Proof. destruct st. reflexivity. Qed.

Lemma now_next st t X (c : Call X) k o : now (next st t c k o) = t.
Proof. unfold next. rewrite exec_now. reflexivity. Qed.

Lemma next_now st t X (c : Call X) k o : set_now t (next st t c k o) = next st t c k o.
Proof. rewrite <- (now_next st t X c k o) at 1. apply set_now_id. Qed.

Lemma react_next st t X (c : Call X) k ans :
  crashed st = None -> pending st = [Pend c k] ->
  react (set_now t st) (Settle 0 ans) = next st t c k (ans _ c).
Proof.
  intros H E. unfold react, next. cbn [crashed set_now pending]. rewrite H, E.
  reflexivity.
Qed.

(** A process that only waits for one promise ignores everything but the
    clock and that promise. *)
Lemma react_waiting st i p :
  timers st = [] -> listeners st = [] -> server st = Closed -> pending st = [p] ->
  match i with Tick _ | Settle 0 _ => False | _ => True end ->
  react st i = st.
Proof.
  intros Ht Hl Hs Hp Hi. unfold react. destruct (crashed st); [reflexivity|].
  destruct i as [dt|n|n ans| ev data | | e | req]; try contradiction.
  - rewrite Ht. destruct n; reflexivity.
  - rewrite Hp. destruct n as [|[|n]]; [contradiction| |]; reflexivity.
  - unfold deliver. rewrite Hl. reflexivity.
  - rewrite Hs. reflexivity.
  - rewrite Hs. reflexivity.
  - rewrite Hs. reflexivity.
Qed.

Lemma connecting_fields argv :
  timers (connecting argv) = [] /\ listeners (connecting argv) = [] /\
  server (connecting argv) = Closed /\ crashed (connecting argv) = None /\
  pending (connecting argv) = [Pend (Connect (dbConfig argv)) (resume (withDatabase argv))].
Proof. repeat split; vm_compute; reflexivity. Qed.

Lemma creating_fields argv t1 sq :
  timers (creating argv t1 sq) = [] /\ listeners (creating argv t1 sq) = [] /\
  server (creating argv t1 sq) = Closed /\ crashed (creating argv t1 sq) = None /\
  pending (creating argv t1 sq) =
    [Pend (CreateStateChannel (channelConfig argv sq)) (resume (withClient argv))].
Proof. repeat split; vm_compute; reflexivity. Qed.

Lemma querying_fields argv t1 sq t2 cl :
  timers (querying argv t1 sq t2 cl) = [] /\ listeners (querying argv t1 sq t2 cl) = [] /\
  server (querying argv t1 sq t2 cl) = Closed /\
  crashed (querying argv t1 sq t2 cl) = None /\
  pending (querying argv t1 sq t2 cl) =
    [Pend (GetFreeBalance cl AddressZero) (resume (withFreeBalance argv cl))].
Proof. repeat split; vm_compute; reflexivity. Qed.

Lemma up_fields argv b :
  timers (up argv b) = [] /\
  listeners (up argv b) = [(CONDITIONAL_TRANSFER_UNLOCKED_EVENT, onUnlocked (client b))] /\
  pending (up argv b) = [] /\
  middleware (up argv b) = [("tiny"%string, serverLoggerStream_write)] /\
  routes (up argv b) = [(GET, "/"%string, root)] /\
  server (up argv b) = Binding argv.["port"] (started argv) /\
  crashed (up argv b) = None.
Proof. repeat split; vm_compute; reflexivity. Qed.

Lemma dead_fields argv t1 sq t2 cl t e :
  crashed (noDatabase argv t e) = Some e /\
  crashed (noChannel argv t1 sq t e) = Some e /\
  crashed (noBalance argv t1 sq t2 cl t e) = Some e.
Proof. repeat split; vm_compute; reflexivity. Qed.

Lemma running_up argv b : Running argv b (up argv b) [] [] [] [].
Proof.
  destruct (up_fields argv b) as (Ht & Hl & Hp & Hm & Hr & Hs & Hc).
  constructor; try assumption.
  - rewrite app_nil_r. reflexivity.
  - reflexivity.
  - apply perm_nil.
  - reflexivity.
  - constructor.
Qed.

Ltac waiting_phase H F :=
  rewrite H;
  match goal with
  | |- Inv _ (react (set_now ?t ?s) ?i) =>
      rewrite (react_waiting (set_now t s) i _ (proj1 F) (proj1 (proj2 F))
                 (proj1 (proj2 (proj2 F))) (proj2 (proj2 (proj2 (proj2 F))))) by exact I
  end.

Lemma inv_react argv st i : Inv argv st -> Inv argv (react st i).
Proof.
  intros [t H|t1 sq t H|t1 sq t2 cl t H|t e H|t1 sq t e H|t1 sq t2 cl t e H
         |b sched fired waiting rest R Hsv Hcr Hb Hr Hu
         |b sched fired waiting rest R Hsv Hcr Hb Hr Hu
         |b sched fired waiting rest e R Hsv Hcr Hb Hr Hu].
  - (* waiting for the database *)
    pose proof (connecting_fields argv) as F.
    destruct i as [dt|n|[|n] ans| ev data | | e | req];
      try (waiting_phase H F; apply Inv_connecting with (t := t); reflexivity).
    + rewrite H, react_tick by apply F.
      apply Inv_connecting with (t := t + Z.of_N dt). reflexivity.
    + rewrite H.
      rewrite (react_next (connecting argv) t _ _ _ ans
                 (proj1 (proj2 (proj2 (proj2 F)))) (proj2 (proj2 (proj2 (proj2 F))))).
      destruct (ans Sequelize (Connect (dbConfig argv))) as [sq|e].
      * apply Inv_creating with (t1 := t) (sq := sq) (t := t).
        symmetry. apply next_now.
      * apply Inv_noDatabase with (t := t) (e := e). reflexivity.
  - (* waiting for the state channel *)
    pose proof (creating_fields argv t1 sq) as F.
    destruct i as [dt|n|[|n] ans| ev data | | e | req];
      try (waiting_phase H F; apply Inv_creating with (t1 := t1) (sq := sq) (t := t);
           reflexivity).
    + rewrite H, react_tick by apply F.
      apply Inv_creating with (t1 := t1) (sq := sq) (t := t + Z.of_N dt). reflexivity.
    + rewrite H.
      rewrite (react_next (creating argv t1 sq) t _ _ _ ans
                 (proj1 (proj2 (proj2 (proj2 F)))) (proj2 (proj2 (proj2 (proj2 F))))).
      destruct (ans Client (CreateStateChannel (channelConfig argv sq))) as [cl|e].
      * apply Inv_querying with (t1 := t1) (sq := sq) (t2 := t) (cl := cl) (t := t).
        symmetry. apply next_now.
      * apply Inv_noChannel with (t1 := t1) (sq := sq) (t := t) (e := e). reflexivity.
  - (* waiting for the free balance *)
    pose proof (querying_fields argv t1 sq t2 cl) as F.
    destruct i as [dt|n|[|n] ans| ev data | | e | req];
      try (waiting_phase H F;
           apply Inv_querying with (t1 := t1) (sq := sq) (t2 := t2) (cl := cl) (t := t);
           reflexivity).
    + rewrite H, react_tick by apply F.
      apply Inv_querying with (t1 := t1) (sq := sq) (t2 := t2) (cl := cl)
                              (t := t + Z.of_N dt).
      reflexivity.
    + rewrite H.
      rewrite (react_next (querying argv t1 sq t2 cl) t _ _ _ ans
                 (proj1 (proj2 (proj2 (proj2 F)))) (proj2 (proj2 (proj2 (proj2 F))))).
      destruct (ans FreeBalance (GetFreeBalance cl AddressZero)) as [fb|e].
      * pose (b := mkBoot t1 sq t2 cl t fb).
        change (Inv argv (up argv b)).
        destruct (up_fields argv b) as (_ & _ & _ & _ & _ & Hs & Hc).
        apply Inv_binding with (b := b) (sched := []) (fired := []) (waiting := [])
                               (rest := []); try assumption; try reflexivity.
        apply running_up.
      * apply Inv_noBalance with (t1 := t1) (sq := sq) (t2 := t2) (cl := cl) (t := t)
                                 (e := e).
        reflexivity.
  - rewrite (react_crashed st e i)
      by (rewrite H; apply (dead_fields argv 0 (SequelizeHandle 0) 0
                              (mkClient EmptyString EmptyString) t e)).
    apply Inv_noDatabase with (t := t) (e := e). exact H.
  - rewrite (react_crashed st e i)
      by (rewrite H; apply (dead_fields argv t1 sq 0 (mkClient EmptyString EmptyString) t e)).
    apply Inv_noChannel with (t1 := t1) (sq := sq) (t := t) (e := e). exact H.
  - rewrite (react_crashed st e i) by (rewrite H; apply (dead_fields argv t1 sq t2 cl t e)).
    apply Inv_noBalance with (t1 := t1) (sq := sq) (t2 := t2) (cl := cl) (t := t) (e := e).
    exact H.
  - (* the server is binding its port *)
    pose proof R as [Htr Htm Hls Hpd Hmw Hrt Hrest Hperm Hsub Hlate].
    destruct i as [dt|n|n ans| ev data | | e | req].
    1-4: (edestruct (running_step argv b st sched fired waiting rest) as
            (sched' & fired' & waiting' & rest' & R' & Hsv' & Hcr' & Hb' & Hr' & Hu');
          [exact R | exact Hcr | | eapply Inv_binding;
             [exact R' | congruence | exact Hcr'
             | rewrite count_app, Hb, Hb'; reflexivity
             | rewrite count_app, Hr, Hr'; reflexivity
             | rewrite count_app, Hu, Hu'; reflexivity]]; exact I).
    + rewrite (react_bound st _ _ Hcr Hsv), exec_started.
      eapply Inv_listening with (b := b) (sched := sched) (fired := fired)
                                (waiting := waiting).
      * constructor; fields.
        1: { rewrite Htr, <- !app_assoc. cbn [app]. reflexivity. }
        all: rewrite ?app_nil_r; try assumption.
        -- rewrite forallb_app, Hrest. reflexivity.
        -- rewrite deliveries_app. cbn [deliveries]. rewrite app_nil_r. exact Hperm.
        -- rewrite submissions_app, Hsub. cbn [submissions]. rewrite app_nil_r. reflexivity.
      * reflexivity.
      * exact Hcr.
      * rewrite count_app, Hb. reflexivity.
      * rewrite before_app, Hb. cbn. rewrite andb_true_r.
        clear - Hr. induction rest as [|x rest IH]; [reflexivity|].
        cbn [count before] in *. destruct (of_class KResponse x) eqn:Ex; [discriminate|].
        destruct (of_class KBound x); [reflexivity | auto].
      * rewrite count_app, Hu. reflexivity.
    + rewrite (react_bindError st _ _ e Hcr Hsv).
      eapply Inv_noPort with (b := b) (sched := sched) (fired := fired)
                             (waiting := waiting) (e := e).
      * constructor; fields.
        1: { rewrite Htr, <- !app_assoc. cbn [app]. reflexivity. }
        all: rewrite ?app_nil_r; try assumption.
        -- rewrite forallb_app, Hrest. reflexivity.
        -- rewrite deliveries_app. cbn [deliveries]. rewrite app_nil_r. exact Hperm.
        -- rewrite submissions_app, Hsub. cbn [submissions]. rewrite app_nil_r. reflexivity.
      * exact Hsv.
      * reflexivity.
      * rewrite count_app, Hb. reflexivity.
      * rewrite count_app, Hr. reflexivity.
      * rewrite count_app, Hu. reflexivity.
    + rewrite react_incoming_closed by (intros port; rewrite Hsv; discriminate).
      eapply Inv_binding; eassumption.
  - (* the server is listening *)
    pose proof R as [Htr Htm Hls Hpd Hmw Hrt Hrest Hperm Hsub Hlate].
    destruct i as [dt|n|n ans| ev data | | e | req].
    1-4: (edestruct (running_step argv b st sched fired waiting rest) as
            (sched' & fired' & waiting' & rest' & R' & Hsv' & Hcr' & Hb' & Hr' & Hu');
          [exact R | exact Hcr | | eapply Inv_listening;
             [exact R' | congruence | exact Hcr'
             | rewrite count_app, Hb, Hb'; reflexivity
             | rewrite before_app, Hr, Hb; reflexivity
             | rewrite count_app, Hu, Hu'; reflexivity]]; exact I).
    + replace (react st Bound) with st.
      * eapply Inv_listening; eassumption.
      * unfold react. rewrite Hcr, Hsv. reflexivity.
    + replace (react st (BindError e)) with st.
      * eapply Inv_listening; eassumption.
      * unfold react. rewrite Hcr, Hsv. reflexivity.
    + rewrite (react_incoming st _ req Hcr Hsv), (respond_eq st req Hrt Hmw).
      eapply Inv_listening with (b := b) (sched := sched) (fired := fired)
                                (waiting := waiting).
      * constructor; fields.
        1: { rewrite Htr, <- !app_assoc. cbn [app]. reflexivity. }
        all: rewrite ?app_nil_r; try assumption.
        -- rewrite forallb_app, Hrest. reflexivity.
        -- rewrite deliveries_app. cbn [deliveries]. rewrite app_nil_r. exact Hperm.
        -- rewrite submissions_app, Hsub. cbn [submissions]. rewrite app_nil_r. reflexivity.
      * exact Hsv.
      * exact Hcr.
      * rewrite count_app, Hb. reflexivity.
      * rewrite before_app, Hr, Hb. reflexivity.
      * rewrite count_app, Hu. reflexivity.
  - rewrite (react_crashed st e i Hcr). eapply Inv_noPort; eassumption.
Qed.

Lemma inv_run argv ins : forall st, Inv argv st -> Inv argv (run st ins).
Proof.
  induction ins as [|i ins IH]; intros st H; [exact H|].
  cbn [run fold_left]. apply IH. apply inv_react. exact H.
Qed.

Lemma inv_boot argv : Inv argv (boot argv).
Proof. apply Inv_connecting with (t := 0). symmetry. apply (set_now_id (boot argv)). Qed.

(** ** The order of the start-up *)

Lemma reach argv ins : Inv argv (run (boot argv) ins).
Proof. apply inv_run. apply inv_boot. Qed.

Lemma count_running c rest :
  forallb running rest = true -> runningClass c = false -> count c rest = 0%nat.
Proof.
  intros H Hc. induction rest as [|x rest IH]; [reflexivity|].
  cbn [forallb] in H. apply andb_true_iff in H as [Hx H].
  cbn [count]. unfold of_class. unfold running in Hx.
  destruct (Class_eqb (classify (snd x)) c) eqn:E; [|auto].
  exfalso. destruct (classify (snd x)), c; cbn in *; congruence.
Qed.

Lemma before_absent p q tr : count q tr = 0%nat -> before p q tr = true.
Proof.
  induction tr as [|x tr IH]; [reflexivity|]. cbn [count before].
  destruct (of_class q x); [discriminate|]. intros H.
  destruct (of_class p x); auto.
Qed.

(** Solves a goal about the trace of a state whose shape is known. *)
Ltac known_state H := rewrite H; vm_compute; try reflexivity; try discriminate.

Ltac running_trace Htr Hrest :=
  rewrite Htr;
  rewrite ?before_app, ?count_app;
  repeat match goal with
    | |- context [count ?c ?r] =>
        is_var r; rewrite (count_running c r Hrest eq_refl)
    end.

(** C9.  In every run, the callback for unlocked transfers is registered
    before the server is asked to listen, before it listens and before any
    response is sent; and whenever the server is binding or listening, the
    callback is among the listeners of the channel client. *)
Theorem subscribed_before_listening (argv : Argv) (ins : list Input) :
  let st := run (boot argv) ins in
  before KSubscribe KListen (trace st) = true /\
  before KSubscribe KBound (trace st) = true /\
  before KSubscribe KResponse (trace st) = true /\
  before KBound KResponse (trace st) = true /\
  (server st <> Closed ->
   exists cl, listeners st = [(CONDITIONAL_TRANSFER_UNLOCKED_EVENT, onUnlocked cl)]).
Proof.
  intros st. pose proof (reach argv ins) as I. fold st in I. clearbody st.
  destruct I as
    [t H|t1 sq t H|t1 sq t2 cl t H|t e H|t1 sq t e H|t1 sq t2 cl t e H
    |b sched fired waiting rest R Hsv Hcr Hb Hr Hu
    |b sched fired waiting rest R Hsv Hcr Hb Hr Hu
    |b sched fired waiting rest e R Hsv Hcr Hb Hr Hu].
  1-6: (repeat split; [known_state H ..|]; intros Hs; exfalso; apply Hs; known_state H).
  all: pose proof R as [Htr Htm Hls Hpd Hmw Hrt Hrest Hperm Hsub Hlate];
    (repeat split;
      [running_trace Htr Hrest;
       try rewrite (before_absent KBound KResponse rest) by assumption;
       rewrite ?Hb, ?Hr; vm_compute; reflexivity ..|]);
    intros _; exists (client b); exact Hls.
Qed.

(** Closes a goal made of facts computed from a known trace. *)
Ltac settle :=
  vm_compute;
  repeat match goal with
    | |- _ /\ _ => split
    | |- _ -> _ => let X := fresh in intros X; try (exfalso; apply X; reflexivity)
    | |- exists _, _ => eexists
    | |- _ = _ => reflexivity
    end.

(** C3.  The start-up goes in order, and each of its steps is taken as
    soon as the one before it is through: the database connection is asked
    for once; the state channel is asked for when, and only after, the
    connection resolved; the free balance is asked for when the state
    channel resolved; the subscription is made when, and only after, the
    free balance resolved, once at most, and it comes after the channel
    resolved; and the server is asked to listen right after the
    subscription, as often as the subscription was made.  When the
    connection is rejected no state channel is ever asked for, and when the
    state channel is rejected its client is never used; either way the
    server never listens and the process ends on the rejection. *)
Theorem startup_in_order (argv : Argv) (ins : list Input) :
  let st := run (boot argv) ins in
  let tr := trace st in
  count KCallConnect tr = 1%nat /\
  count KCallCreate tr = count KOkConnect tr /\
  before KOkConnect KCallCreate tr = true /\
  count KCallBalance tr = count KOkCreate tr /\
  before KOkCreate KCallBalance tr = true /\
  before KOkCreate KSubscribe tr = true /\
  count KSubscribe tr = count KOkBalance tr /\
  before KOkBalance KSubscribe tr = true /\
  Nat.leb (count KSubscribe tr) 1 = true /\
  before KSubscribe KListen tr = true /\
  count KListen tr = count KSubscribe tr /\
  (count KKoConnect tr <> 0%nat ->
   count KCallCreate tr = 0%nat /\ count KSubscribe tr = 0%nat /\
   count KListen tr = 0%nat /\ count KBound tr = 0%nat /\
   exists e, crashed st = Some e) /\
  (count KKoCreate tr <> 0%nat ->
   count KCallBalance tr = 0%nat /\ count KCallTransfer tr = 0%nat /\
   count KSubscribe tr = 0%nat /\
   count KListen tr = 0%nat /\ count KBound tr = 0%nat /\
   exists e, crashed st = Some e).
Proof.
  intros st tr; subst tr. pose proof (reach argv ins) as I. fold st in I. clearbody st.
  destruct I as
    [t H|t1 sq t H|t1 sq t2 cl t H|t e H|t1 sq t e H|t1 sq t2 cl t e H
    |b sched fired waiting rest R Hsv Hcr Hb Hr Hu
    |b sched fired waiting rest R Hsv Hcr Hb Hr Hu
    |b sched fired waiting rest e R Hsv Hcr Hb Hr Hu].
  1-6: (rewrite H; settle).
  all: pose proof R as [Htr Htm Hls Hpd Hmw Hrt Hrest Hperm Hsub Hlate];
    running_trace Htr Hrest; settle.
Qed.

(** ** The status endpoint and the rejected transfer *)

Lemma nth_error_middle (A : Type) (l r : list A) x :
  nth_error (l ++ x :: r) (List.length l) = Some x.
Proof. induction l as [|y l IH]; [reflexivity | exact IH]. Qed.

Lemma remove_nth_middle (A : Type) (l r : list A) x :
  remove_nth (List.length l) (l ++ x :: r) = l ++ r.
Proof.
  unfold remove_nth. induction l as [|y l IH]; [reflexivity|].
  cbn [List.length app firstn skipn] in *. rewrite IH. reflexivity.
Qed.

Lemma responses_app l1 l2 : responses (l1 ++ l2) = responses l1 ++ responses l2.
Proof.
  induction l1 as [|[t o] l1 IH]; cbn [app responses]; [reflexivity|].
  destruct o; try exact IH. cbn [app]. rewrite IH. reflexivity.
Qed.

(** The states in which the start-up is over and the process alive. *)
Lemma inv_running argv st :
  Inv argv st -> crashed st = None -> server st <> Closed ->
  exists b sched fired waiting rest, Running argv b st sched fired waiting rest.
Proof.
  intros [t H|t1 sq t H|t1 sq t2 cl t H|t e H|t1 sq t e H|t1 sq t2 cl t e H
         |b sched fired waiting rest R Hsv Hcr Hb Hr Hu
         |b sched fired waiting rest R Hsv Hcr Hb Hr Hu
         |b sched fired waiting rest e R Hsv Hcr Hb Hr Hu] Hc Hs.
  1-3: (exfalso; apply Hs; rewrite H; vm_compute; reflexivity).
  1-3: (exfalso; revert Hc; rewrite H; vm_compute; discriminate).
  1-2: (exists b, sched, fired, waiting, rest; exact R).
  congruence.
Qed.

(** A function that waits for a transfer is an echo of the running
    process. *)
Lemma inv_waiting argv st n cl req :
  Inv argv st -> crashed st = None ->
  option_map transferOf (nth_error (pending st) n) = Some (Some (cl, req)) ->
  exists b sched fired waiting rest data,
    Running argv b st sched fired waiting rest /\
    nth_error waiting n = Some data /\ cl = client b /\ req = requestOf data.
Proof.
  intros [t H|t1 sq t H|t1 sq t2 cl0 t H|t e H|t1 sq t e H|t1 sq t2 cl0 t e H
         |b sched fired waiting rest R Hsv Hcr Hb Hr Hu
         |b sched fired waiting rest R Hsv Hcr Hb Hr Hu
         |b sched fired waiting rest e R Hsv Hcr Hb Hr Hu] Hc Hp.
  1-3: (exfalso; revert Hp; rewrite H; destruct n as [|[|n]]; vm_compute; discriminate).
  1-3: (exfalso; revert Hc; rewrite H; vm_compute; discriminate).
  3: congruence.
  all: pose proof R as [Htr Htm Hls Hpd Hmw Hrt Hrest Hperm Hsub Hlate];
    rewrite Hpd, nth_error_map in Hp;
    destruct (nth_error waiting n) as [data|] eqn:E; [|discriminate];
    cbn in Hp; injection Hp as <- <-;
    exists b, sched, fired, waiting, rest, data; repeat split; assumption.
Qed.

(** A request for the root path, answered by a listening application. *)
Lemma served st port :
  crashed st = None -> server st = Listening port ->
  routes st = [(GET, "/"%string, root)] ->
  middleware st = [("tiny"%string, serverLoggerStream_write)] ->
  trace (react st (Incoming getRoot)) =
    trace st ++
    [(now st, OResponse getRoot ready);
     (now st, OLog serverLogger Debug
                (trim (morgan "tiny" getRoot ready ++ String "010" EmptyString)%string))] /\
  responses (trace (react st (Incoming getRoot))) =
    responses (trace st) ++ [(getRoot, ready)] /\
  timers (react st (Incoming getRoot)) = timers st /\
  pending (react st (Incoming getRoot)) = pending st /\
  listeners (react st (Incoming getRoot)) = listeners st /\
  server (react st (Incoming getRoot)) = server st /\
  crashed (react st (Incoming getRoot)) = None.
Proof.
  intros Hc Hs Hr Hm.
  rewrite (react_incoming st port getRoot Hc Hs), (respond_eq st getRoot Hr Hm).
  fields. rewrite ?app_nil_r, responses_app.
  repeat split; try assumption; reflexivity.
Qed.

(** C6.  Once the server listens, a GET request for the path [/] is
    answered, whatever timers are set and whatever transfers are pending,
    with status 200 and the body [Ready to roll!]; it is the only response
    sent, and it changes nothing else in the process. *)
Theorem status_endpoint (argv : Argv) (ins : list Input) (port : option JsValue) :
  let st := run (boot argv) ins in
  server st = Listening port ->
  let st' := react st (Incoming {| req_method := GET; req_path := "/" |}) in
  responses (trace st') =
    responses (trace st) ++
    [({| req_method := GET; req_path := "/" |},
      {| statusCode := 200; body := Some "Ready to roll!"%string |})] /\
  timers st' = timers st /\ pending st' = pending st /\
  listeners st' = listeners st /\ server st' = server st /\ crashed st' = None.
Proof.
  intros st Hs st'.
  pose proof (reach argv ins) as I. fold st in I.
  assert (Hc : crashed st = None).
  { destruct I as
      [t H|t1 sq t H|t1 sq t2 cl t H|t e H|t1 sq t e H|t1 sq t2 cl t e H
      |b sched fired waiting rest R Hsv Hcr Hb Hr Hu
      |b sched fired waiting rest R Hsv Hcr Hb Hr Hu
      |b sched fired waiting rest e R Hsv Hcr Hb Hr Hu]; try assumption.
    1-6: (exfalso; clearbody st; revert Hs; rewrite H; vm_compute; discriminate).
    congruence. }
  destruct (inv_running argv st I Hc) as (b & sched & fired & waiting & rest & R).
  { rewrite Hs. discriminate. }
  destruct R as [Htr Htm Hls Hpd Hmw Hrt Hrest Hperm Hsub Hlate].
  apply (served st port Hc Hs Hrt Hmw).
Qed.

(** C2.  When the transfer that an echo waits for is rejected, the echo
    logs one error line naming the sender it was paying back and the
    reason, and ends: no timer is set and no call is made (nothing is
    retried), the process and its server stay as they were (nothing is
    thrown), and the status endpoint still answers. *)
Theorem failed_transfer_is_swallowed (argv : Argv) (ins : list Input) (n : nat)
    (ans : Answer) (cl : Client) (req : TransferRequest) (e : Error) :
  let st := run (boot argv) ins in
  crashed st = None ->
  option_map transferOf (nth_error (pending st) n) = Some (Some (cl, req)) ->
  ans _ (Transfer cl req) = Rejected e ->
  let st' := react st (Settle n ans) in
  trace st' =
    trace st ++
    [(now st, OSettled (Transfer cl req) (Rejected e));
     (now st, OLog logger Err
                ("Failed to send payment back to " ++ tr_recipient req ++ ": "
                   ++ message e)%string)] /\
  timers st' = timers st /\
  pending st' = remove_nth n (pending st) /\
  listeners st' = listeners st /\ server st' = server st /\ crashed st' = None /\
  (forall port, server st = Listening port ->
   responses (trace (react st' (Incoming {| req_method := GET; req_path := "/" |}))) =
   responses (trace st') ++
   [({| req_method := GET; req_path := "/" |},
     {| statusCode := 200; body := Some "Ready to roll!"%string |})]).
Proof.
  intros st Hc Hp Ha st'.
  pose proof (reach argv ins) as I. fold st in I.
  destruct (inv_waiting argv st n cl req I Hc Hp)
    as (b & sched & fired & waiting & rest & data & R & E & -> & ->).
  destruct R as [Htr Htm Hls Hpd Hmw Hrt Hrest Hperm Hsub Hlate].
  assert (Ep : nth_error (pending st) n = Some (pendingOf (client b) data)).
  { rewrite Hpd, nth_error_map, E. reflexivity. }
  assert (Eq : st' =
               extend (observe (OSettled (Transfer (client b) (requestOf data)) (Rejected e))
                         (set_pending (remove_nth n (pending st)) st))
                 [OLog logger Err
                    ("Failed to send payment back to " ++ sender (meta data) ++ ": "
                       ++ message e)%string] [] []).
  { subst st'. unfold pendingOf in Ep.
    rewrite (react_settle st n _ _ _ ans Hc Ep), Ha. apply exec_echoed_ko. }
  clearbody st'. subst st'.
  refine (conj _ (conj _ (conj _ (conj _ (conj _ (conj _ _)))))).
  1-6: (fields; rewrite ?app_nil_r, <- ?app_assoc; try assumption; reflexivity).
  intros port Hs.
  refine (proj1 (proj2 (served _ port _ _ _ _))); fields; assumption.
Qed.

(** ** The echo of a payment *)

(** What the delivery of an unlocked transfer does to a process whose only
    listener is the callback of [handler]. *)
Lemma delivered st cl data :
  crashed st = None ->
  listeners st = [(CONDITIONAL_TRANSFER_UNLOCKED_EVENT, onUnlocked cl)] ->
  react st (Emit CONDITIONAL_TRANSFER_UNLOCKED_EVENT data) =
  extend (observe (ODelivered CONDITIONAL_TRANSFER_UNLOCKED_EVENT data) st)
    [OLog logger Info ("Received payment " ++ paymentId data ++ " ("
                         ++ formatEther (amount data) ++ " ETH) from "
                         ++ sender (meta data))%string;
     OSetTimeout 1000]
    [timerOf cl (now st, data)]
    [].
Proof.
  intros Hc Hls.
  rewrite (react_emit st _ data Hc). unfold deliver. rewrite Hls.
  cbn [fold_left fst snd EventNames_eqb].
  exact (exec_onUnlocked cl data
           (observe (ODelivered CONDITIONAL_TRANSFER_UNLOCKED_EVENT data) st)).
Qed.

(** What a due timer of an echo does when it goes off. *)
Lemma fired_echo st n cl d :
  crashed st = None -> nth_error (timers st) n = Some (timerOf cl d) ->
  fst d + 1000 <= now st ->
  react st (Fire n) =
  extend (observe (OTimeout (fst d + 1000)) (set_timers (remove_nth n (timers st)) st))
    [OLog logger Info ("Send " ++ formatEther (amount (snd d)) ++ " ETH back to "
                         ++ sender (meta (snd d)))%string;
     OCall (Transfer cl (requestOf (snd d)))]
    []
    [pendingOf cl (snd d)].
Proof.
  intros Hc E L. unfold timerOf in E.
  rewrite (react_fire st n _ _ Hc E L). apply exec_echo.
Qed.

(** C10.  The callback checks nothing about the payment it is given:
    whatever the payload of an unlocked transfer delivered to a running
    process (any amount, also zero or negative, any sender), once 1000 time
    units have passed and its timer goes off, exactly one transfer is
    submitted, of that very amount, to that sender, in the native asset. *)
Theorem any_payment_is_echoed (argv : Argv) (ins : list Input) (data : Payload) :
  let st := run (boot argv) ins in
  crashed st = None -> server st <> Closed ->
  let st' := run st [Emit CONDITIONAL_TRANSFER_UNLOCKED_EVENT data;
                     Tick 1000;
                     Fire (List.length (timers st))] in
  submissions (trace st') =
    submissions (trace st) ++
    [(now st + 1000,
      {| tr_amount := amount data;
         tr_recipient := sender (meta data);
         tr_assetId := AddressZero |})] /\
  timers st' = timers st /\
  crashed st' = None.
Proof.
  intros st Hc Hs st'.
  pose proof (reach argv ins) as I. fold st in I.
  destruct (inv_running argv st I Hc Hs) as (b & sched & fired & waiting & rest & R).
  subst st'. clearbody st. cbn [run fold_left].
  rewrite (delivered st (client b) data Hc (r_listeners _ _ _ _ _ _ _ R)).
  rewrite react_tick by (fields; assumption).
  match goal with
  | |- context [react ?s (Fire ?n)] =>
      rewrite (fired_echo s n (client b) (now st, data))
  end.
  - fields. rewrite ?app_nil_r, !submissions_app, remove_nth_middle. cbn [submissions].
    rewrite ?app_nil_r. repeat split; assumption.
  - fields. assumption.
  - fields. apply nth_error_middle.
  - fields. cbn [fst]. lia.
Qed.

(** What the settling of the transfer of an echo does. *)
Lemma settled_echo st m cl data ans :
  crashed st = None -> nth_error (pending st) m = Some (pendingOf cl data) ->
  react st (Settle m ans) =
  extend (observe (OSettled (Transfer cl (requestOf data))
                     (ans _ (Transfer cl (requestOf data))))
            (set_pending (remove_nth m (pending st)) st))
    [match ans _ (Transfer cl (requestOf data)) with
     | Resolved r =>
         OLog logger Info (formatEther (amount data) ++ " ETH sent back to "
                             ++ sender (meta data) ++ " via payment "
                             ++ resp_paymentId r)%string
     | Rejected e =>
         OLog logger Err ("Failed to send payment back to " ++ sender (meta data)
                            ++ ": " ++ message e)%string
     end]
    [] [].
Proof.
  intros Hc E. unfold pendingOf in E. rewrite (react_settle st m _ _ _ ans Hc E).
  destruct (ans TransferResponse (Transfer cl (requestOf data))) as [r|e].
  - apply exec_echoed_ok.
  - apply exec_echoed_ko.
Qed.

(** C4.  The handling of one payment goes in three steps that cannot
    overlap.  The delivery only sets a timer for 1000 time units later and
    submits nothing.  Before that time the timer cannot go off; when it
    does, the transfer is submitted and the callback waits for it, having
    logged nothing about its result.  The result is logged in the turn in
    which the transfer settles, after the settling: on success the line
    carries the payment identifier of the response. *)
Theorem echo_steps_in_order (argv : Argv) (ins : list Input) (data : Payload) :
  let st := run (boot argv) ins in
  crashed st = None -> server st <> Closed ->
  let st1 := react st (Emit CONDITIONAL_TRANSFER_UNLOCKED_EVENT data) in
  let due := now st + 1000 in
  exists cl cb k,
    let transfer := Transfer cl (requestOf data) in
    timers st1 = timers st ++ [(due, cb)] /\
    pending st1 = pending st /\
    submissions (trace st1) = submissions (trace st) /\
    (forall s n,
       nth_error (timers s) n = Some (due, cb) -> now s < due ->
       react s (Fire n) = s) /\
    (forall s n,
       crashed s = None -> nth_error (timers s) n = Some (due, cb) -> due <= now s ->
       trace (react s (Fire n)) =
         trace s ++
         [(now s, OTimeout due);
          (now s, OLog logger Info
                    ("Send " ++ formatEther (amount data) ++ " ETH back to "
                       ++ sender (meta data))%string);
          (now s, OCall transfer)] /\
       pending (react s (Fire n)) = pending s ++ [Pend transfer k]) /\
    (forall s m ans,
       crashed s = None -> nth_error (pending s) m = Some (Pend transfer k) ->
       trace (react s (Settle m ans)) =
         trace s ++
         [(now s, OSettled transfer (ans _ transfer));
          (now s,
           match ans _ transfer with
           | Resolved r =>
               OLog logger Info
                 (formatEther (amount data) ++ " ETH sent back to "
                    ++ sender (meta data) ++ " via payment " ++ resp_paymentId r)%string
           | Rejected e =>
               OLog logger Err
                 ("Failed to send payment back to " ++ sender (meta data) ++ ": "
                    ++ message e)%string
           end)]).
Proof.
  intros st Hc Hs st1 due.
  pose proof (reach argv ins) as I. fold st in I.
  destruct (inv_running argv st I Hc Hs) as (b & sched & fired & waiting & rest & R).
  subst st1 due. clearbody st.
  rewrite (delivered st (client b) data Hc (r_listeners _ _ _ _ _ _ _ R)).
  exists (client b), (snd (timerOf (client b) (now st, data))),
         (echoed (formatEther (toBN (amount data))) data).
  cbv zeta.
  refine (conj _ (conj _ (conj _ (conj _ (conj _ _))))).
  - fields. reflexivity.
  - fields. apply app_nil_r.
  - fields. rewrite !submissions_app. cbn [submissions]. rewrite !app_nil_r. reflexivity.
  - intros s n E L. apply (react_fire_early s n _ _ E L).
  - intros s n Hcs E L.
    rewrite (fired_echo s n (client b) (now st, data) Hcs E L).
    fields. rewrite ?app_nil_r, <- ?app_assoc. split; reflexivity.
  - intros s m ans Hcs E.
    rewrite (settled_echo s m (client b) data ans Hcs E).
    fields. rewrite ?app_nil_r, <- ?app_assoc. reflexivity.
Qed.

(** ** Every turn, by what it adds to the trace *)

Lemma errorLines_app l1 l2 : errorLines (l1 ++ l2) = (errorLines l1 + errorLines l2)%nat.
Proof.
  induction l1 as [|[t o] l1 IH]; cbn [app errorLines]; [reflexivity|].
  destruct o; try exact IH. destruct lvl; try exact IH.
  rewrite IH. reflexivity.
Qed.

Lemma turn_more st st' new l :
  trace st' = trace st ++ new ->
  errorLines new = count KKoTransfer new ->
  deliveries new = l ->
  (accounted st -> accounted st') /\
  deliveries (trace st') = deliveries (trace st) ++ l.
Proof.
  unfold accounted. intros H E D.
  rewrite H, count_app, errorLines_app, deliveries_app, D, E.
  split; [intros A; rewrite A; reflexivity | reflexivity].
Qed.

Lemma turn_same st i :
  arrival st i = [] ->
  (accounted st -> accounted st) /\
  deliveries (trace st) = deliveries (trace st) ++ arrival st i.
Proof. intros E. rewrite E, app_nil_r. split; [exact (fun A => A) | reflexivity]. Qed.

(** A turn of a process that is up and running. *)
Lemma running_turn argv st cl sched waiting i :
  crashed st = None ->
  timers st = map (timerOf cl) sched ->
  listeners st = [(CONDITIONAL_TRANSFER_UNLOCKED_EVENT, onUnlocked cl)] ->
  pending st = map (pendingOf cl) waiting ->
  middleware st = [("tiny"%string, serverLoggerStream_write)] ->
  routes st = [(GET, "/"%string, root)] ->
  (server st = Closed -> False) ->
  (forall port cb, server st = Binding port cb -> cb = started argv) ->
  upAndRunning (trace st) = true ->
  (accounted st -> accounted (react st i)) /\
  deliveries (trace (react st i)) = deliveries (trace st) ++ arrival st i.
Proof.
  intros Hcr Htm Hls Hpd Hmw Hrt Hsv Hcb Hup.
  destruct i as [dt|n|n ans| ev data | | e | req].
  - rewrite (react_tick st dt Hcr).
    apply (turn_more st _ [] (arrival st (Tick dt)));
      [fields; rewrite app_nil_r; reflexivity | reflexivity | reflexivity].
  - destruct (nth_error (timers st) n) as [[due cb]|] eqn:E;
      [|rewrite (react_fire_none st n E); apply turn_same; reflexivity].
    assert (exists d, (due, cb) = timerOf cl d) as [d Hd].
    { rewrite Htm in E. rewrite nth_error_map in E.
      destruct (nth_error sched n) as [d|]; [|discriminate].
      exists d. cbn in E. congruence. }
    destruct (Z.leb_spec due (now st)) as [L|L];
      [|rewrite (react_fire_early st n due cb E L); apply turn_same; reflexivity].
    rewrite Hd in E. assert (L' : fst d + 1000 <= now st).
    { unfold timerOf in Hd. congruence. }
    rewrite (fired_echo st n cl d Hcr E L').
    eapply (turn_more st _ _ (arrival st (Fire n)));
      [fields; rewrite <- app_assoc; reflexivity | reflexivity | reflexivity].
  - destruct (nth_error (pending st) n) as [p|] eqn:E;
      [|rewrite (react_settle_none st n ans E); apply turn_same; reflexivity].
    assert (exists data, p = pendingOf cl data) as [data Hd].
    { rewrite Hpd in E. rewrite nth_error_map in E.
      destruct (nth_error waiting n) as [d|]; [|discriminate].
      exists d. cbn in E. congruence. }
    rewrite Hd in E.
    rewrite (settled_echo st n cl data ans Hcr E).
    eapply (turn_more st _ _ (arrival st (Settle n ans)));
      [ fields; rewrite <- app_assoc; reflexivity
      | destruct (ans _ (Transfer cl (requestOf data))); reflexivity
      | destruct (ans _ (Transfer cl (requestOf data))); reflexivity ].
  - destruct ev.
    1, 3: (rewrite (react_emit st _ data Hcr); unfold deliver; rewrite Hls;
           cbn [fold_left fst snd EventNames_eqb]; apply turn_same; reflexivity).
    rewrite (delivered st cl data Hcr Hls).
    eapply (turn_more st _ _ _);
      [ fields; rewrite <- app_assoc; reflexivity | reflexivity
      | unfold arrival; rewrite Hup; reflexivity ].
  - destruct (server st) as [|port cb|port] eqn:Es.
    + destruct Hsv. reflexivity.
    + rewrite (react_bound st _ _ Hcr Es), (Hcb port cb eq_refl), exec_started.
      eapply (turn_more st _ _ (arrival st Bound));
        [fields; rewrite <- app_assoc; reflexivity | reflexivity | reflexivity].
    + replace (react st Bound) with st by (unfold react; rewrite Hcr, Es; reflexivity).
      apply turn_same. reflexivity.
  - destruct (server st) as [|port cb|port] eqn:Es.
    + destruct Hsv. reflexivity.
    + rewrite (react_bindError st _ _ e Hcr Es).
      eapply (turn_more st _ _ (arrival st (BindError e)));
        [fields; reflexivity | reflexivity | reflexivity].
    + replace (react st (BindError e)) with st
        by (unfold react; rewrite Hcr, Es; reflexivity).
      apply turn_same. reflexivity.
  - destruct (server st) as [|port cb|port] eqn:Es.
    + destruct Hsv. reflexivity.
    + rewrite react_incoming_closed by (intros p; rewrite Es; discriminate).
      apply turn_same. reflexivity.
    + rewrite (react_incoming st _ req Hcr Es), (respond_eq st req Hrt Hmw).
      eapply (turn_more st _ _ (arrival st (Incoming req)));
        [fields; reflexivity | reflexivity | reflexivity].
Qed.

Lemma running_upAndRunning argv b st sched fired waiting rest :
  Running argv b st sched fired waiting rest ->
  upAndRunning (trace st) = Nat.eqb (count KUncaught rest) 0.
Proof.
  intros [Htr Htm Hls Hpd Hmw Hrt Hrest Hperm Hsub Hlate].
  unfold upAndRunning.
  rewrite Htr, !count_app, (count_running KOkBalance rest Hrest eq_refl).
  assert (E1 : count KOkBalance (trace (up argv b)) = 1%nat) by (vm_compute; reflexivity).
  assert (E2 : count KUncaught (trace (up argv b)) = 0%nat) by (vm_compute; reflexivity).
  rewrite E1, E2. reflexivity.
Qed.

Ltac waiting_turn H F :=
  rewrite H;
  match goal with
  | |- context [react (set_now ?t ?s) ?i] =>
      rewrite (react_waiting (set_now t s) i _ (proj1 F) (proj1 (proj2 F))
                 (proj1 (proj2 (proj2 F))) (proj2 (proj2 (proj2 (proj2 F))))) by exact I
  end.

Ltac startup_turn :=
  try match goal with ev : EventNames |- _ => destruct ev end;
  (split; [intros _|]); vm_compute; reflexivity.

(** A turn of any process of a run. *)
Lemma turn argv st i :
  Inv argv st ->
  (accounted st -> accounted (react st i)) /\
  deliveries (trace (react st i)) = deliveries (trace st) ++ arrival st i.
Proof.
  intros [t H|t1 sq t H|t1 sq t2 cl t H|t e H|t1 sq t e H|t1 sq t2 cl t e H
         |b sched fired waiting rest R Hsv Hcr Hb Hr Hu
         |b sched fired waiting rest R Hsv Hcr Hb Hr Hu
         |b sched fired waiting rest e R Hsv Hcr Hb Hr Hu].
  - pose proof (connecting_fields argv) as F.
    destruct i as [dt|n|[|n] ans| ev data | | e | req];
      try (waiting_turn H F; startup_turn).
    + rewrite H, react_tick by apply F. startup_turn.
    + rewrite H.
      rewrite (react_next (connecting argv) t _ _ _ ans
                 (proj1 (proj2 (proj2 (proj2 F)))) (proj2 (proj2 (proj2 (proj2 F))))).
      destruct (ans Sequelize (Connect (dbConfig argv))); startup_turn.
  - pose proof (creating_fields argv t1 sq) as F.
    destruct i as [dt|n|[|n] ans| ev data | | e | req];
      try (waiting_turn H F; startup_turn).
    + rewrite H, react_tick by apply F. startup_turn.
    + rewrite H.
      rewrite (react_next (creating argv t1 sq) t _ _ _ ans
                 (proj1 (proj2 (proj2 (proj2 F)))) (proj2 (proj2 (proj2 (proj2 F))))).
      destruct (ans Client (CreateStateChannel (channelConfig argv sq))); startup_turn.
  - pose proof (querying_fields argv t1 sq t2 cl) as F.
    destruct i as [dt|n|[|n] ans| ev data | | e | req];
      try (waiting_turn H F; startup_turn).
    + rewrite H, react_tick by apply F. startup_turn.
    + rewrite H.
      rewrite (react_next (querying argv t1 sq t2 cl) t _ _ _ ans
                 (proj1 (proj2 (proj2 (proj2 F)))) (proj2 (proj2 (proj2 (proj2 F))))).
      destruct (ans FreeBalance (GetFreeBalance cl AddressZero)); startup_turn.
  - rewrite (react_crashed st e i)
      by (rewrite H; apply (dead_fields argv 0 (SequelizeHandle 0) 0
                              (mkClient EmptyString EmptyString) t e)).
    apply turn_same. rewrite H.
    destruct i as [| | |ev data| | |]; try reflexivity.
    destruct ev; try reflexivity; vm_compute; reflexivity.
  - rewrite (react_crashed st e i)
      by (rewrite H; apply (dead_fields argv t1 sq 0 (mkClient EmptyString EmptyString) t e)).
    apply turn_same. rewrite H.
    destruct i as [| | |ev data| | |]; try reflexivity.
    destruct ev; try reflexivity; vm_compute; reflexivity.
  - rewrite (react_crashed st e i) by (rewrite H; apply (dead_fields argv t1 sq t2 cl t e)).
    apply turn_same. rewrite H.
    destruct i as [| | |ev data| | |]; try reflexivity.
    destruct ev; try reflexivity; vm_compute; reflexivity.
  - pose proof (running_upAndRunning argv b st sched fired waiting rest R) as Hup.
    rewrite Hu in Hup.
    pose proof R as [Htr Htm Hls Hpd Hmw Hrt Hrest Hperm Hsub Hlate].
    apply (running_turn argv st (client b) sched waiting i Hcr Htm Hls Hpd Hmw Hrt);
      [rewrite Hsv; discriminate | rewrite Hsv; intros port cb E; congruence | exact Hup].
  - pose proof (running_upAndRunning argv b st sched fired waiting rest R) as Hup.
    rewrite Hu in Hup.
    pose proof R as [Htr Htm Hls Hpd Hmw Hrt Hrest Hperm Hsub Hlate].
    apply (running_turn argv st (client b) sched waiting i Hcr Htm Hls Hpd Hmw Hrt);
      [rewrite Hsv; discriminate | rewrite Hsv; intros port cb E; congruence | exact Hup].
  - pose proof (running_upAndRunning argv b st sched fired waiting rest R) as Hup.
    rewrite Hu in Hup.
    rewrite (react_crashed st e i Hcr). apply turn_same.
    destruct i as [| | |ev data| | |]; try reflexivity.
    destruct ev; try reflexivity. unfold arrival. rewrite Hup. reflexivity.
Qed.

Lemma accounted_run argv st ins :
  Inv argv st -> accounted st -> accounted (run st ins).
Proof.
  revert st. induction ins as [|i ins IH]; intros st Hinv Hacc; [exact Hacc|].
  unfold run. cbn [fold_left].
  apply IH; [apply inv_react; exact Hinv | apply (proj1 (turn argv st i Hinv) Hacc)].
Qed.

Lemma accounted_boot argv : accounted (boot argv).
Proof. vm_compute. reflexivity. Qed.

Lemma deliveries_run argv st ins :
  Inv argv st ->
  deliveries (trace (run st ins)) = deliveries (trace st) ++ arrivals st ins.
Proof.
  revert st. induction ins as [|i ins IH]; intros st Hinv.
  - cbn [run fold_left arrivals]. rewrite app_nil_r. reflexivity.
  - unfold run. cbn [fold_left arrivals]. fold (run (react st i) ins).
    rewrite (IH (react st i) (inv_react argv st i Hinv)), (proj2 (turn argv st i Hinv)).
    rewrite app_assoc. reflexivity.
Qed.

Lemma deliveries_boot argv ins :
  deliveries (trace (run (boot argv) ins)) = arrivals (boot argv) ins.
Proof.
  rewrite (deliveries_run argv (boot argv) ins (inv_boot argv)).
  assert (E : deliveries (trace (boot argv)) = []) by (vm_compute; reflexivity).
  rewrite E. reflexivity.
Qed.

(** The start-up asks for each thing it needs as soon as it can. *)
Lemma startup_goes_on argv st :
  Inv argv st ->
  count KCallConnect (trace st) = 1%nat /\
  count KCallCreate (trace st) = count KOkConnect (trace st) /\
  count KCallBalance (trace st) = count KOkCreate (trace st).
Proof.
  intros [t H|t1 sq t H|t1 sq t2 cl t H|t e H|t1 sq t e H|t1 sq t2 cl t e H
         |b sched fired waiting rest R Hsv Hcr Hb Hr Hu
         |b sched fired waiting rest R Hsv Hcr Hb Hr Hu
         |b sched fired waiting rest e R Hsv Hcr Hb Hr Hu].
  1-6: (rewrite H; settle).
  all: pose proof R as [Htr Htm Hls Hpd Hmw Hrt Hrest Hperm Hsub Hlate];
    running_trace Htr Hrest; settle.
Qed.

(** C1.  In every run, every unlocked transfer that the channel client
    emitted once the free balance had resolved, and while no error had gone
    uncaught, was delivered to the callback exactly once, at the time of
    its emission, and nothing else was: the deliveries are the emissions,
    one for one and in their order.  The start-up gets that far whenever
    its collaborators let it: the connection is asked for, the state
    channel as soon as the connection resolved, the free balance as soon as
    the state channel resolved.  The transfers submitted so far and the
    timers still set account for these deliveries, one for one: the
    deliveries are, up to their order, those in [fired] and those in
    [sched]; the submissions are exactly one per delivery in [fired], made
    no earlier than 1000 time units after it, of the amount delivered, to
    its sender, in the native asset; every delivery in [sched] has its timer
    set for 1000 time units after it; and once that time has come the timer
    going off submits that transfer. *)
Theorem echo_exactly_once (argv : Argv) (ins : list Input) :
  let st := run (boot argv) ins in
  let echoOf (data : Payload) :=
    {| tr_amount := amount data;
       tr_recipient := sender (meta data);
       tr_assetId := AddressZero |} in
  deliveries (trace st) = arrivals (boot argv) ins /\
  (count KCallConnect (trace st) = 1%nat /\
   count KCallCreate (trace st) = count KOkConnect (trace st) /\
   count KCallBalance (trace st) = count KOkCreate (trace st)) /\
  exists (fired : list ((Z * Payload) * Z)) (sched : list (Z * Payload)),
    Permutation (deliveries (trace st)) (map fst fired ++ sched) /\
    submissions (trace st) = map (fun f => (snd f, echoOf (snd (fst f)))) fired /\
    Forall (fun f => fst (fst f) + 1000 <= snd f) fired /\
    map fst (timers st) = map (fun d => fst d + 1000) sched /\
    (crashed st = None ->
     forall n d dt,
       nth_error sched n = Some d -> fst d + 1000 <= now st + Z.of_N dt ->
       submissions (trace (run st [Tick dt; Fire n])) =
       submissions (trace st) ++ [(now st + Z.of_N dt, echoOf (snd d))]).
Proof.
  intros st echoOf. subst echoOf.
  split; [apply deliveries_boot|].
  pose proof (reach argv ins) as I. fold st in I. clearbody st.
  split; [exact (startup_goes_on argv st I)|].
  destruct I as
    [t H|t1 sq t H|t1 sq t2 cl t H|t e H|t1 sq t e H|t1 sq t2 cl t e H
    |b sched fired waiting rest R Hsv Hcr Hb Hr Hu
    |b sched fired waiting rest R Hsv Hcr Hb Hr Hu
    |b sched fired waiting rest e R Hsv Hcr Hb Hr Hu].
  1-6: (exists [], []; rewrite H;
        refine (conj _ (conj _ (conj _ (conj _ _))));
        [ vm_compute; apply perm_nil | vm_compute; reflexivity | constructor
        | vm_compute; reflexivity | intros _ [|n] d dt E; discriminate E ]).
  all: pose proof R as [Htr Htm Hls Hpd Hmw Hrt Hrest Hperm Hsub Hlate];
    exists fired, sched;
    assert (Hd : deliveries (trace (up argv b)) = []) by (vm_compute; reflexivity);
    assert (Hs : submissions (trace (up argv b)) = []) by (vm_compute; reflexivity);
    (refine (conj _ (conj _ (conj _ (conj _ _))));
     [ rewrite Htr, deliveries_app, Hd; exact Hperm
     | rewrite Htr, submissions_app, Hs; exact Hsub
     | exact Hlate
     | rewrite Htm, map_map; reflexivity
     | ]).
  3: congruence.
  all: intros Hc n d dt E L; cbn [run fold_left];
    rewrite react_tick by assumption;
    match goal with
    | |- context [react ?s (Fire n)] => rewrite (fired_echo s n (client b) d)
    end;
    [ fields; rewrite ?app_nil_r, !submissions_app; cbn [submissions];
      rewrite ?app_nil_r; reflexivity
    | fields; assumption
    | fields; rewrite Htm, nth_error_map, E; reflexivity
    | fields; exact L ].
Qed.

(** The timer of an echo going off, by its place among the timers. *)
Lemma fire_at st cl d l r :
  crashed st = None -> timers st = l ++ timerOf cl d :: r -> fst d + 1000 <= now st ->
  react st (Fire (List.length l)) =
  extend (observe (OTimeout (fst d + 1000)) (set_timers (l ++ r) st))
    [OLog logger Info ("Send " ++ formatEther (amount (snd d)) ++ " ETH back to "
                         ++ sender (meta (snd d)))%string;
     OCall (Transfer cl (requestOf (snd d)))]
    []
    [pendingOf cl (snd d)].
Proof.
  intros Hc E L.
  rewrite (fired_echo st (List.length l) cl d Hc).
  - rewrite E, remove_nth_middle. reflexivity.
  - rewrite E. apply nth_error_middle.
  - exact L.
Qed.

(** The transfer of an echo settling, by its place among the functions
    that wait. *)
Lemma settle_at st cl data l r ans :
  crashed st = None -> pending st = l ++ pendingOf cl data :: r ->
  react st (Settle (List.length l) ans) =
  extend (observe (OSettled (Transfer cl (requestOf data))
                     (ans _ (Transfer cl (requestOf data))))
            (set_pending (l ++ r) st))
    [match ans _ (Transfer cl (requestOf data)) with
     | Resolved r =>
         OLog logger Info (formatEther (amount data) ++ " ETH sent back to "
                             ++ sender (meta data) ++ " via payment "
                             ++ resp_paymentId r)%string
     | Rejected e =>
         OLog logger Err ("Failed to send payment back to " ++ sender (meta data)
                            ++ ": " ++ message e)%string
     end]
    [] [].
Proof.
  intros Hc E.
  rewrite (settled_echo st (List.length l) cl data ans Hc).
  - rewrite E, remove_nth_middle. reflexivity.
  - rewrite E. apply nth_error_middle.
Qed.

(** Two payments delivered to a running process, and 1000 time units
    later. *)
Lemma two_delivered st cl d1 d2 :
  crashed st = None ->
  listeners st = [(CONDITIONAL_TRANSFER_UNLOCKED_EVENT, onUnlocked cl)] ->
  exists tr,
    run st [Emit CONDITIONAL_TRANSFER_UNLOCKED_EVENT d1;
            Emit CONDITIONAL_TRANSFER_UNLOCKED_EVENT d2;
            Tick 1000] =
    mkState (now st + 1000) tr
      (timers st ++ [timerOf cl (now st, d1); timerOf cl (now st, d2)])
      (listeners st) (pending st) (middleware st) (routes st) (server st) None /\
    submissions tr = submissions (trace st).
Proof.
  intros Hc Hls. cbn [run fold_left].
  rewrite (delivered st cl d1 Hc Hls).
  rewrite (delivered _ cl d2) by (fields; assumption).
  rewrite react_tick by (fields; assumption).
  eexists. split.
  - unfold set_now. fields. rewrite ?app_nil_r, <- !app_assoc, Hc. cbn [app]. reflexivity.
  - rewrite !submissions_app. cbn [submissions]. rewrite !app_nil_r. reflexivity.
Qed.

(** Closes the side conditions of a turn taken from a known state. *)
Ltac side L :=
  first [ apply L
        | fields; rewrite ?app_nil_r, <- ?app_assoc; reflexivity ].

(** C5.  Two payments delivered to a running process are echoed by two
    tasks that share nothing.  Each delivery sets a timer of its own.  Once
    both are due they may go off in either order, and after both did, both
    transfers are in flight together.  The rejection of the first transfer
    stops nothing: the second is submitted all the same when the rejection
    comes before, stays in flight when it comes after; and the second may as
    well settle while the first is still in flight. *)
Theorem echoes_are_independent (argv : Argv) (ins : list Input)
    (d1 d2 : Payload) :
  let st := run (boot argv) ins in
  crashed st = None -> server st <> Closed ->
  let n := List.length (timers st) in
  let m := List.length (pending st) in
  let due := now st + 1000 in
  let s := run st [Emit CONDITIONAL_TRANSFER_UNLOCKED_EVENT d1;
                   Emit CONDITIONAL_TRANSFER_UNLOCKED_EVENT d2;
                   Tick 1000] in
  exists cl cb1 cb2,
    timers s = timers st ++ [(due, cb1); (due, cb2)] /\
    submissions (trace (run s [Fire n; Fire n])) =
      submissions (trace st) ++ [(due, requestOf d1); (due, requestOf d2)] /\
    submissions (trace (run s [Fire (S n); Fire n])) =
      submissions (trace st) ++ [(due, requestOf d2); (due, requestOf d1)] /\
    map transferOf (pending (run s [Fire n; Fire n])) =
      map transferOf (pending st) ++ [Some (cl, requestOf d1); Some (cl, requestOf d2)] /\
    (forall (ans : Answer) (e : Error),
       ans _ (Transfer cl (requestOf d1)) = Rejected e ->
       submissions (trace (run s [Fire n; Settle m ans; Fire n])) =
         submissions (trace st) ++ [(due, requestOf d1); (due, requestOf d2)] /\
       map transferOf (pending (run s [Fire n; Settle m ans; Fire n])) =
         map transferOf (pending st) ++ [Some (cl, requestOf d2)] /\
       map transferOf (pending (run s [Fire n; Fire n; Settle m ans])) =
         map transferOf (pending st) ++ [Some (cl, requestOf d2)] /\
       crashed (run s [Fire n; Fire n; Settle m ans]) = None) /\
    (forall ans : Answer,
       map transferOf (pending (run s [Fire n; Fire n; Settle (S m) ans])) =
         map transferOf (pending st) ++ [Some (cl, requestOf d1)]).
Proof.
  intros st Hc Hs n m due s.
  pose proof (reach argv ins) as I. fold st in I.
  destruct (inv_running argv st I Hc Hs) as (b & sched & fired & waiting & rest & R).
  destruct (two_delivered st (client b) d1 d2 Hc (r_listeners _ _ _ _ _ _ _ R))
    as (tr & Es & Etr).
  subst s n m due. rewrite Es. clear Es I R Hc Hs. revert Etr.
  generalize (submissions (trace st)) as subs.
  generalize (timers st) as ts. generalize (pending st) as ps.
  generalize (listeners st) as ls. generalize (middleware st) as mw.
  generalize (routes st) as rs. generalize (server st) as sv.
  generalize (now st) as t. clear st.
  intros t sv rs mw ls ps ts subs Etr.
  set (cl := client b). set (t1 := timerOf cl (t, d1)). set (t2 := timerOf cl (t, d2)).
  exists cl, (snd t1), (snd t2).
  assert (L : forall d : Payload, fst (t, d) + 1000 <= t + 1000) by (intros; cbn [fst]; lia).
  refine (conj _ (conj _ (conj _ (conj _ (conj _ _))))).
  - reflexivity.
  - cbn [run fold_left].
    rewrite (fire_at (mkState _ _ _ _ _ _ _ _ _) cl (t, d1) ts [t2]) by side L.
    rewrite (fire_at (extend _ _ _ _) cl (t, d2) ts []) by side L.
    fields. rewrite ?app_nil_r, !submissions_app, Etr. cbn [submissions]. 
    rewrite ?app_nil_r, <- ?app_assoc. reflexivity.
  - cbn [run fold_left].
    replace (S (List.length ts)) with (List.length (ts ++ [t1]))
      by (rewrite length_app; cbn [List.length]; lia).
    rewrite (fire_at (mkState _ _ _ _ _ _ _ _ _) cl (t, d2) (ts ++ [t1]) []) by side L.
    rewrite (fire_at (extend _ _ _ _) cl (t, d1) ts []) by side L.
    fields. rewrite ?app_nil_r, !submissions_app, Etr. cbn [submissions].
    rewrite ?app_nil_r, <- ?app_assoc. reflexivity.
  - cbn [run fold_left].
    rewrite (fire_at (mkState _ _ _ _ _ _ _ _ _) cl (t, d1) ts [t2]) by side L.
    rewrite (fire_at (extend _ _ _ _) cl (t, d2) ts []) by side L.
    fields. rewrite <- app_assoc, map_app. reflexivity.
  - intros ans e Ha.
    refine (conj _ (conj _ (conj _ _))).
    + cbn [run fold_left].
      rewrite (fire_at (mkState _ _ _ _ _ _ _ _ _) cl (t, d1) ts [t2]) by side L.
      rewrite (settle_at (extend _ _ _ _) cl d1 ps [] ans) by side L. rewrite ?Ha.
      rewrite (fire_at (extend _ _ _ _) cl (t, d2) ts []) by side L.
      fields. rewrite ?app_nil_r, !submissions_app, Etr. cbn [submissions].
      rewrite ?app_nil_r, <- ?app_assoc. reflexivity.
    + cbn [run fold_left].
      rewrite (fire_at (mkState _ _ _ _ _ _ _ _ _) cl (t, d1) ts [t2]) by side L.
      rewrite (settle_at (extend _ _ _ _) cl d1 ps [] ans) by side L. rewrite ?Ha.
      rewrite (fire_at (extend _ _ _ _) cl (t, d2) ts []) by side L.
      fields. rewrite ?app_nil_r, map_app. reflexivity.
    + cbn [run fold_left].
      rewrite (fire_at (mkState _ _ _ _ _ _ _ _ _) cl (t, d1) ts [t2]) by side L.
      rewrite (fire_at (extend _ _ _ _) cl (t, d2) ts []) by side L.
      rewrite (settle_at (extend _ _ _ _) cl d1 ps [pendingOf cl d2] ans) by side L. rewrite ?Ha.
      fields. rewrite ?app_nil_r, map_app. reflexivity.
    + cbn [run fold_left].
      rewrite (fire_at (mkState _ _ _ _ _ _ _ _ _) cl (t, d1) ts [t2]) by side L.
      rewrite (fire_at (extend _ _ _ _) cl (t, d2) ts []) by side L.
      rewrite (settle_at (extend _ _ _ _) cl d1 ps [pendingOf cl d2] ans) by side L. rewrite ?Ha.
      reflexivity.
  - intros ans. cbn [run fold_left].
    rewrite (fire_at (mkState _ _ _ _ _ _ _ _ _) cl (t, d1) ts [t2]) by side L.
    rewrite (fire_at (extend _ _ _ _) cl (t, d2) ts []) by side L.
    replace (S (List.length ps)) with (List.length (ps ++ [pendingOf cl d1]))
      by (rewrite length_app; cbn [List.length]; lia).
    rewrite (settle_at (extend _ _ _ _) cl d2 (ps ++ [pendingOf cl d1]) [] ans) by side L.
    fields. rewrite ?app_nil_r, map_app. reflexivity.
Qed.

(** ** The trace is write-only *)









(** ** The command line *)

Lemma run_crashed st e ins : crashed st = Some e -> run st ins = st.
Proof.
  intros H. induction ins as [|i ins IH]; [reflexivity|].
  cbn [run fold_left]. rewrite (react_crashed st e i H). exact IH.
Qed.

(** C7.  The command needs the options [mnemonic], [ethereum],
    [connext-node] and [postgres-database], and no other.  A command line
    that gives all four is accepted whatever else it gives or leaves out:
    [handler] then finds each option under its camel-case name, with 5432
    for [postgres-port] and 7600 for [port] when they are not given.  A
    command line that lacks one of the four is refused with the list of the
    missing ones, [handler] is not run, and no connection to the database
    is ever attempted. *)
Theorem required_options_and_defaults (cmd : CommandLine) :
  match cl_mnemonic cmd, cl_ethereum cmd, cl_connextNode cmd, cl_postgresDatabase cmd with
  | Some m, Some e, Some n, Some d =>
      exists argv,
        parse (builder yargs) (given cmd) = inl argv /\
        start (given cmd) = boot argv /\
        argv.["mnemonic"] = Some (JStr m) /\
        argv.["ethereum"] = Some (JStr e) /\
        argv.["connextNode"] = Some (JStr n) /\
        argv.["postgresDatabase"] = Some (JStr d) /\
        argv.["connextMessaging"] = option_map JStr (cl_connextMessaging cmd) /\
        argv.["postgresHost"] = option_map JStr (cl_postgresHost cmd) /\
        argv.["postgresUsername"] = option_map JStr (cl_postgresUsername cmd) /\
        argv.["postgresPassword"] = option_map JStr (cl_postgresPassword cmd) /\
        argv.["postgresPort"] =
          Some (JNum match cl_postgresPort cmd with Some p => p | None => 5432 end) /\
        argv.["port"] =
          Some (JNum match cl_port cmd with Some p => p | None => 7600 end)
  | _, _, _, _ =>
      let missing :=
        lacking "mnemonic" (cl_mnemonic cmd) ++ lacking "ethereum" (cl_ethereum cmd)
        ++ lacking "connext-node" (cl_connextNode cmd)
        ++ lacking "postgres-database" (cl_postgresDatabase cmd) in
      parse (builder yargs) (given cmd) = inr missing /\
      start (given cmd) = usage missing /\
      forall ins, count KCallConnect (trace (run (start (given cmd)) ins)) = 0%nat
  end.
Proof.
  assert (Refused : forall given missing,
            parse (builder yargs) given = inr missing ->
            parse (builder yargs) given = inr missing /\
            start given = usage missing /\
            forall ins, count KCallConnect (trace (run (start given) ins)) = 0%nat).
  { intros gv missing H. split; [exact H|].
    assert (E : start gv = usage missing) by (unfold start; rewrite H; reflexivity).
    split; [exact E|]. intros ins. rewrite E.
    rewrite (run_crashed (usage missing) _ ins eq_refl). reflexivity. }
  assert (Accepted : forall given argv,
            parse (builder yargs) given = inl argv ->
            parse (builder yargs) given = inl argv /\ start given = boot argv).
  { intros gv argv H. split; [exact H|]. unfold start. rewrite H. reflexivity. }
  destruct cmd as [[m|] [e|] [cm|] [cn|] [ph|] [pp|] [pu|] [pw|] [pd|] [p|]];
    cbn [cl_mnemonic cl_ethereum cl_connextNode cl_postgresDatabase cl_connextMessaging
         cl_postgresHost cl_postgresUsername cl_postgresPassword cl_postgresPort cl_port];
    try (cbv zeta; apply Refused; vm_compute; reflexivity).
  all: eexists;
    match goal with
    | |- ?P /\ ?Q /\ ?R => apply (proj1 (and_assoc P Q R))
    end;
    (split; [apply Accepted; vm_compute; reflexivity|]);
    vm_compute; repeat split.
Qed.

(** ** The access log *)

Lemma trimStart_app s t :
  trimStart (s ++ t)%string =
  match trimStart s with
  | EmptyString => trimStart t
  | u => (u ++ t)%string
  end.
Proof.
  induction s as [|c s IH]; cbn [String.append trimStart].
  - destruct (trimStart t); reflexivity.
  - destruct (is_space c); [exact IH | reflexivity].
Qed.

Lemma trimEnd_space s c :
  is_space c = true -> trimEnd (s ++ String c EmptyString)%string = trimEnd s.
Proof.
  intros Hc. induction s as [|a s IH]; cbn [String.append trimEnd].
  - rewrite Hc. reflexivity.
  - rewrite IH. reflexivity.
Qed.

(** The line feed that morgan ends a line with is trimmed away. *)
Lemma trim_line s : trim (s ++ String "010" EmptyString)%string = trim s.
Proof.
  unfold trim. rewrite trimStart_app.
  destruct (trimStart s) as [|a u] eqn:E.
  - reflexivity.
  - apply (trimEnd_space (String a u)). reflexivity.
Qed.

(** A listening process is alive. *)
Lemma listening_alive argv st port :
  Inv argv st -> server st = Listening port -> crashed st = None.
Proof.
  intros [t H|t1 sq t H|t1 sq t2 cl t H|t e H|t1 sq t e H|t1 sq t2 cl t e H
         |b sched fired waiting rest R Hsv Hcr Hb Hr Hu
         |b sched fired waiting rest R Hsv Hcr Hb Hr Hu
         |b sched fired waiting rest e R Hsv Hcr Hb Hr Hu] Hs; try assumption.
  1-6: (exfalso; revert Hs; rewrite H; vm_compute; discriminate).
  congruence.
Qed.

(** What a listening process of a run does with a request. *)
Lemma requested argv st port req :
  Inv argv st -> server st = Listening port ->
  react st (Incoming req) =
  extend st
    [OResponse req (answer req);
     OLog serverLogger Debug (trim (morgan "tiny" req (answer req)))]
    [] [].
Proof.
  intros Hinv Hs. pose proof (listening_alive argv st port Hinv Hs) as Hc.
  destruct (inv_running argv st Hinv Hc) as (b & sched & fired & waiting & rest & R).
  { rewrite Hs. discriminate. }
  destruct R as [Htr Htm Hls Hpd Hmw Hrt Hrest Hperm Hsub Hlate].
  rewrite (react_incoming st port req Hc Hs), (respond_eq st req Hrt Hmw), trim_line.
  reflexivity.
Qed.

(** X1.  Every request that reaches the listening server, whatever its
    method and path, is answered once and then logged once: one line at
    level debug on the child logger of the component [Server], which is
    the line that morgan composed in the format [tiny] without the line
    feed at its end.  Nothing else changes in the process. *)
Theorem every_request_is_logged (argv : Argv) (ins : list Input)
    (port : option JsValue) (req : Request) :
  let st := run (boot argv) ins in
  server st = Listening port ->
  let st' := react st (Incoming req) in
  exists res,
    trace st' =
      trace st ++
      [(now st, OResponse req res);
       (now st, OLog {| appName := "IndexerService"; component := Some "Server"%string |}
                  Debug (trim (morgan "tiny" req res)))] /\
    timers st' = timers st /\ pending st' = pending st /\
    listeners st' = listeners st /\ server st' = server st /\
    crashed st' = None.
Proof.
  intros st Hs st'. subst st'.
  pose proof (reach argv ins) as Hinv. fold st in Hinv. clearbody st.
  pose proof (listening_alive argv st port Hinv Hs) as Hc.
  rewrite (requested argv st port req Hinv Hs).
  exists (answer req). fields. rewrite ?app_nil_r.
  repeat split; assumption.
Qed.

(** What the application of [handler] answers, request by request. *)
Lemma answer_eq req :
  answer req =
  if String.eqb (req_path req) "/" then
    match req_method req with
    | GET => ready
    | HEAD => {| statusCode := 200; body := None |}
    | OPTIONS => {| statusCode := 200; body := Some "GET,HEAD"%string |}
    | _ => finalhandler req
    end
  else finalhandler req.
Proof.
  unfold answer, dispatch, matches, allowed, finish. cbn [find fold_left fst snd].
  rewrite (String.eqb_sym "/" (req_path req)).
  destruct (String.eqb (req_path req) "/"); destruct (req_method req); reflexivity.
Qed.

(** X2.  The application has one route and no other, for GET and the path
    [/], and every request that reaches the listening server is answered
    by the router of express accordingly.  A GET request for [/] gets the
    answer of the status endpoint.  A HEAD request for [/] is handled by
    the same route and gets its status without the body.  An OPTIONS
    request for [/] gets the automatic answer of express, which lists the
    methods of the route, GET and HEAD.  Every other request, for another
    path or of another method, is left to [finalhandler]. *)
Theorem only_the_root_is_routed (argv : Argv) (ins : list Input)
    (port : option JsValue) (req : Request) :
  let st := run (boot argv) ins in
  server st = Listening port ->
  responses (trace (react st (Incoming req))) =
  responses (trace st) ++
  [(req,
    if String.eqb (req_path req) "/" then
      match req_method req with
      | GET => {| statusCode := 200; body := Some "Ready to roll!"%string |}
      | HEAD => {| statusCode := 200; body := None |}
      | OPTIONS => {| statusCode := 200; body := Some "GET,HEAD"%string |}
      | _ => finalhandler req
      end
    else finalhandler req)].
Proof.
  intros st Hs.
  pose proof (reach argv ins) as Hinv. fold st in Hinv. clearbody st.
  rewrite (requested argv st port req Hinv Hs).
  fields. rewrite responses_app, answer_eq. reflexivity.
Qed.

(** ** From the command line to the collaborators *)

Lemma connections_app l1 l2 : connections (l1 ++ l2) = connections l1 ++ connections l2.
Proof.
  induction l1 as [|[t o] l1 IH]; cbn [app connections]; [reflexivity|].
  destruct o; try exact IH. destruct c; try exact IH.
  cbn [app]. rewrite IH. reflexivity.
Qed.

Lemma creations_app l1 l2 : creations (l1 ++ l2) = creations l1 ++ creations l2.
Proof.
  induction l1 as [|[t o] l1 IH]; cbn [app creations]; [reflexivity|].
  destruct o; try exact IH. destruct c; try exact IH.
  cbn [app]. rewrite IH. reflexivity.
Qed.

Lemma connected_app l1 l2 : connected (l1 ++ l2) = connected l1 ++ connected l2.
Proof.
  induction l1 as [|[t o] l1 IH]; cbn [app connected]; [reflexivity|].
  destruct o; try exact IH. destruct o as [x|e]; [|exact IH].
  destruct c; try exact IH. cbn [app]. rewrite IH. reflexivity.
Qed.

(** Once the start-up is over no connection and no state channel is asked
    for. *)
Lemma startup_calls_running rest :
  forallb running rest = true ->
  connections rest = [] /\ creations rest = [] /\ connected rest = [].
Proof.
  induction rest as [|[t o] rest IH]; [repeat split|].
  cbn [forallb]. intros H. apply andb_true_iff in H as [Ho H].
  specialize (IH H). destruct o; try exact IH.
  - destruct c; try exact IH; discriminate Ho.
  - destruct o as [x|e]; [|exact IH]. destruct c; try exact IH; discriminate Ho.
Qed.

(** In every run the database is asked for once, with the options of
    [argv]; and a state channel is asked for on each connection that
    resolved, with that connection and the options of [argv]. *)
Lemma startup_calls argv st :
  Inv argv st ->
  connections (trace st) = [dbConfig argv] /\
  creations (trace st) = map (channelConfig argv) (connected (trace st)).
Proof.
  intros [t H|t1 sq t H|t1 sq t2 cl t H|t e H|t1 sq t e H|t1 sq t2 cl t e H
         |b sched fired waiting rest R Hsv Hcr Hb Hr Hu
         |b sched fired waiting rest R Hsv Hcr Hb Hr Hu
         |b sched fired waiting rest e R Hsv Hcr Hb Hr Hu].
  1-6: (rewrite H; split; vm_compute; reflexivity).
  all: pose proof R as [Htr Htm Hls Hpd Hmw Hrt Hrest Hperm Hsub Hlate];
    destruct (startup_calls_running rest Hrest) as (E1 & E2 & E3);
    rewrite Htr, connections_app, creations_app, connected_app, E1, E2, E3, !app_nil_r;
    split; vm_compute; reflexivity.
Qed.

(** What [handler] finds in the [argv] of a command line that gives the
    four demanded options. *)
Lemma accepted cmd m e n d :
  cl_mnemonic cmd = Some m -> cl_ethereum cmd = Some e ->
  cl_connextNode cmd = Some n -> cl_postgresDatabase cmd = Some d ->
  exists argv,
    start (given cmd) = boot argv /\
    dbConfig argv =
      {| db_logging := None;
         db_host := option_map JStr (cl_postgresHost cmd);
         db_port := Some (JNum match cl_postgresPort cmd with
                               | Some p => p
                               | None => 5432
                               end);
         db_username := option_map JStr (cl_postgresUsername cmd);
         db_password := option_map JStr (cl_postgresPassword cmd);
         db_database := Some (JStr d) |} /\
    (forall sq,
       channelConfig argv sq =
       {| ch_sequelize := sq;
          ch_mnemonic := Some (JStr m);
          ch_ethereumProvider := Some (JStr e);
          ch_connextMessaging := option_map JStr (cl_connextMessaging cmd);
          ch_connextNode := Some (JStr n);
          ch_logLevel := 1 |}) /\
    argv.["port"] = Some (JNum match cl_port cmd with Some p => p | None => 7600 end).
Proof.
  destruct cmd as [m' e' cm n' ph pp pu pw d' p].
  cbn [cl_mnemonic cl_ethereum cl_connextNode cl_postgresDatabase cl_connextMessaging
       cl_postgresHost cl_postgresUsername cl_postgresPassword cl_postgresPort cl_port].
  intros -> -> -> ->.
  assert (Acc : forall gv argv,
            parse (builder yargs) gv = inl argv -> start gv = boot argv).
  { intros gv argv H. unfold start. rewrite H. reflexivity. }
  destruct cm as [cm|], ph as [ph|], pp as [pp|], pu as [pu|], pw as [pw|], p as [p|];
    (eexists; split; [apply Acc; vm_compute; reflexivity|]; vm_compute; repeat split).
Qed.

(** X3.  A command line that gives the four demanded options leads, in
    every run, to exactly one call of [database.connect], and the object
    given to it carries the options of the command line under the names
    the connector expects: host, user name and password as given or
    undefined, the port as given or 5432, the database as given, and no
    [logging]. *)
Theorem database_options_reach_the_connector (cmd : CommandLine)
    (m e n d : string) (ins : list Input) :
  cl_mnemonic cmd = Some m -> cl_ethereum cmd = Some e ->
  cl_connextNode cmd = Some n -> cl_postgresDatabase cmd = Some d ->
  connections (trace (run (start (given cmd)) ins)) =
  [{| db_logging := None;
      db_host := option_map JStr (cl_postgresHost cmd);
      db_port := Some (JNum match cl_postgresPort cmd with
                            | Some p => p
                            | None => 5432
                            end);
      db_username := option_map JStr (cl_postgresUsername cmd);
      db_password := option_map JStr (cl_postgresPassword cmd);
      db_database := Some (JStr d) |}].
Proof.
  intros Hm He Hn Hd.
  destruct (accepted cmd m e n d Hm He Hn Hd) as (argv & -> & <- & _).
  apply (startup_calls argv _ (reach argv ins)).
Qed.

(** X4.  A command line that gives the four demanded options leads, in
    every run, to a state channel being asked for on each database
    connection that resolved and on nothing else: the object given to
    [createStateChannel] carries that very connection, the mnemonic, the
    Ethereum provider and the Connext node of the command line, the Connext
    messaging URL as given or undefined, and the log level 1. *)
Theorem channel_options_reach_the_factory (cmd : CommandLine)
    (m e n d : string) (ins : list Input) :
  cl_mnemonic cmd = Some m -> cl_ethereum cmd = Some e ->
  cl_connextNode cmd = Some n -> cl_postgresDatabase cmd = Some d ->
  let tr := trace (run (start (given cmd)) ins) in
  creations tr =
  map (fun sq =>
         {| ch_sequelize := sq;
            ch_mnemonic := Some (JStr m);
            ch_ethereumProvider := Some (JStr e);
            ch_connextMessaging := option_map JStr (cl_connextMessaging cmd);
            ch_connextNode := Some (JStr n);
            ch_logLevel := 1 |})
      (connected tr).
Proof.
  intros Hm He Hn Hd tr. subst tr.
  destruct (accepted cmd m e n d Hm He Hn Hd) as (argv & -> & _ & Hch & _).
  rewrite (proj2 (startup_calls argv _ (reach argv ins))).
  apply map_ext. exact Hch.
Qed.

Lemma listenCalls_app l1 l2 : listenCalls (l1 ++ l2) = listenCalls l1 ++ listenCalls l2.
Proof.
  induction l1 as [|[t o] l1 IH]; cbn [app listenCalls]; [reflexivity|].
  destruct o; try exact IH. cbn [app]. rewrite IH. reflexivity.
Qed.

(** Once the start-up is over [listen] is not called again. *)
Lemma listenCalls_running rest : forallb running rest = true -> listenCalls rest = [].
Proof.
  induction rest as [|[t o] rest IH]; [reflexivity|].
  cbn [forallb]. intros H. apply andb_true_iff in H as [Ho H].
  specialize (IH H). destruct o; try exact IH. discriminate Ho.
Qed.

(** In every run [listen] is called with the port of [argv], as often as
    the free balance resolved. *)
Lemma listen_calls argv st :
  Inv argv st ->
  listenCalls (trace st) = repeat argv.["port"] (count KOkBalance (trace st)).
Proof.
  intros [t H|t1 sq t H|t1 sq t2 cl t H|t e H|t1 sq t e H|t1 sq t2 cl t e H
         |b sched fired waiting rest R Hsv Hcr Hb Hr Hu
         |b sched fired waiting rest R Hsv Hcr Hb Hr Hu
         |b sched fired waiting rest e R Hsv Hcr Hb Hr Hu].
  1-6: (rewrite H; vm_compute; reflexivity).
  all: pose proof R as [Htr Htm Hls Hpd Hmw Hrt Hrest Hperm Hsub Hlate];
    rewrite Htr, listenCalls_app, count_app, (listenCalls_running rest Hrest),
      (count_running KOkBalance rest Hrest eq_refl), app_nil_r;
    vm_compute; reflexivity.
Qed.

(** X5.  A command line that gives the four demanded options leads, in
    every run, to [server.listen] being called with the number given as
    [--port], or with 7600 when none is given, and with nothing else; it is
    called when the free balance has resolved, and neither before nor a
    second time. *)
Theorem port_option_reaches_listen (cmd : CommandLine)
    (m e n d : string) (ins : list Input) :
  cl_mnemonic cmd = Some m -> cl_ethereum cmd = Some e ->
  cl_connextNode cmd = Some n -> cl_postgresDatabase cmd = Some d ->
  let tr := trace (run (start (given cmd)) ins) in
  listenCalls tr =
  repeat (Some (JNum match cl_port cmd with Some p => p | None => 7600 end))
         (count KOkBalance tr) /\
  Nat.leb (count KOkBalance tr) 1 = true.
Proof.
  intros Hm He Hn Hd.
  destruct (accepted cmd m e n d Hm He Hn Hd) as (argv & -> & _ & _ & <-).
  pose proof (reach argv ins) as Hinv.
  set (st := run (boot argv) ins) in *. clearbody st. intros tr. subst tr.
  split; [exact (listen_calls argv st Hinv)|].
  destruct Hinv as
    [t H|t1 sq t H|t1 sq t2 cl t H|t0 e0 H|t1 sq t e0 H|t1 sq t2 cl t e0 H
    |b sched fired waiting rest R Hsv Hcr Hb Hr Hu
    |b sched fired waiting rest R Hsv Hcr Hb Hr Hu
    |b sched fired waiting rest e0 R Hsv Hcr Hb Hr Hu].
  1-6: (rewrite H; vm_compute; reflexivity).
  all: pose proof R as [Htr Htm Hls Hpd Hmw Hrt Hrest Hperm Hsub Hlate];
    rewrite Htr, count_app, (count_running KOkBalance rest Hrest eq_refl);
    vm_compute; reflexivity.
Qed.
(** ** What the process survives and what it ignores *)

(** A turn leaves a listening process listening. *)
Lemma listening_step argv st port i :
  Inv argv st -> server st = Listening port ->
  server (react st i) = Listening port /\ crashed (react st i) = None.
Proof.
  intros Hinv Hs. pose proof (listening_alive argv st port Hinv Hs) as Hc.
  destruct (inv_running argv st Hinv Hc) as (b & sched & fired & waiting & rest & R).
  { rewrite Hs. discriminate. }
  destruct i as [dt|n|n ans| ev data | | e | req].
  1-4: (match goal with
        | |- context [react ?s ?i] =>
            destruct (running_step argv b s sched fired waiting rest i R Hc I)
              as (sched' & fired' & waiting' & rest' & R' & Hsv' & Hcr' & _)
        end;
        split; [congruence | exact Hcr']).
  - unfold react. rewrite Hc, Hs. split; assumption.
  - unfold react. rewrite Hc, Hs. split; assumption.
  - rewrite (requested argv st port req Hinv Hs). fields. split; assumption.
Qed.

(** X6.  Once its server listens the process cannot be brought down:
    whatever happens afterwards (payments, transfers that are rejected or
    never settle, requests of any kind, time passing), the server keeps
    listening on its port and no error goes uncaught. *)
Theorem listening_process_stays_up (argv : Argv) (ins more : list Input)
    (port : option JsValue) :
  server (run (boot argv) ins) = Listening port ->
  server (run (run (boot argv) ins) more) = Listening port /\
  crashed (run (run (boot argv) ins) more) = None.
Proof.
  pose proof (reach argv ins) as Hinv.
  set (st := run (boot argv) ins) in *. clearbody st. revert st Hinv.
  induction more as [|i more IH]; intros st Hinv Hs.
  - split; [exact Hs | exact (listening_alive argv st port Hinv Hs)].
  - cbn [run fold_left].
    apply (IH (react st i) (inv_react argv st i Hinv)).
    exact (proj1 (listening_step argv st port i Hinv Hs)).
Qed.

(** X7.  The process reacts to unlocked transfers only, and only once it
    has subscribed: an event of another name, and any event emitted while
    the start-up is still waiting for the database, the state channel or
    the free balance, changes nothing; in particular the payment of such an
    event is never sent back. *)
Theorem other_events_are_ignored (argv : Argv) (ins : list Input)
    (ev : EventNames) (data : Payload) :
  let st := run (boot argv) ins in
  ev <> CONDITIONAL_TRANSFER_UNLOCKED_EVENT \/ server st = Closed ->
  react st (Emit ev data) = st.
Proof.
  intros st. pose proof (reach argv ins) as Hinv. fold st in Hinv. clearbody st.
  intros Hev.
  destruct Hinv as
    [t H|t1 sq t H|t1 sq t2 cl t H|t e H|t1 sq t e H|t1 sq t2 cl t e H
    |b sched fired waiting rest R Hsv Hcr Hb Hr Hu
    |b sched fired waiting rest R Hsv Hcr Hb Hr Hu
    |b sched fired waiting rest e R Hsv Hcr Hb Hr Hu].
  - pose proof (connecting_fields argv) as F. rewrite H.
    apply (react_waiting (set_now t (connecting argv)) (Emit ev data) _ (proj1 F) (proj1 (proj2 F)) (proj1 (proj2 (proj2 F)))
             (proj2 (proj2 (proj2 (proj2 F)))) I).
  - pose proof (creating_fields argv t1 sq) as F. rewrite H.
    apply (react_waiting (set_now t (creating argv t1 sq)) (Emit ev data) _ (proj1 F) (proj1 (proj2 F)) (proj1 (proj2 (proj2 F)))
             (proj2 (proj2 (proj2 (proj2 F)))) I).
  - pose proof (querying_fields argv t1 sq t2 cl) as F. rewrite H.
    apply (react_waiting (set_now t (querying argv t1 sq t2 cl)) (Emit ev data) _ (proj1 F) (proj1 (proj2 F)) (proj1 (proj2 (proj2 F)))
             (proj2 (proj2 (proj2 (proj2 F)))) I).
  - apply (react_crashed st e). rewrite H.
    apply (dead_fields argv 0 (SequelizeHandle 0) 0 (mkClient EmptyString EmptyString) t e).
  - apply (react_crashed st e). rewrite H.
    apply (dead_fields argv t1 sq 0 (mkClient EmptyString EmptyString) t e).
  - apply (react_crashed st e). rewrite H. apply (dead_fields argv t1 sq t2 cl t e).
  - destruct Hev as [Hev|Hs]; [|congruence].
    rewrite (react_emit st ev data Hcr). unfold deliver.
    rewrite (r_listeners _ _ _ _ _ _ _ R). cbn [fold_left fst snd].
    destruct ev; try reflexivity. destruct Hev. reflexivity.
  - destruct Hev as [Hev|Hs]; [|congruence].
    rewrite (react_emit st ev data Hcr). unfold deliver.
    rewrite (r_listeners _ _ _ _ _ _ _ R). cbn [fold_left fst snd].
    destruct ev; try reflexivity. destruct Hev. reflexivity.
  - apply (react_crashed st e _ Hcr).
Qed.

(** X8.  Every unlocked transfer delivered to a running process is
    announced by one log line, written in the turn of the delivery, that
    names the payment, its amount as [formatEther] writes it, and its
    sender; the callback is registered once, so the line is never
    doubled. *)
Theorem every_payment_is_announced (argv : Argv) (ins : list Input) (data : Payload) :
  let st := run (boot argv) ins in
  crashed st = None -> server st <> Closed ->
  trace (react st (Emit CONDITIONAL_TRANSFER_UNLOCKED_EVENT data)) =
  trace st ++
  [(now st, ODelivered CONDITIONAL_TRANSFER_UNLOCKED_EVENT data);
   (now st, OLog {| appName := "IndexerService"; component := None |} Info
              ("Received payment " ++ paymentId data ++ " ("
                 ++ formatEther (amount data) ++ " ETH) from "
                 ++ sender (meta data))%string);
   (now st, OSetTimeout 1000)].
Proof.
  intros st Hc Hs.
  pose proof (reach argv ins) as Hinv. fold st in Hinv. clearbody st.
  destruct (inv_running argv st Hinv Hc Hs) as (b & sched & fired & waiting & rest & R).
  rewrite (delivered st (client b) data Hc (r_listeners _ _ _ _ _ _ _ R)).
  fields. rewrite <- app_assoc. reflexivity.
Qed.

(** X9.  Nothing bounds the wait for the database: as long as the
    connection does not settle, whatever else happens and however much time
    passes, the process has done no more than ask for it; it has neither
    subscribed nor started its server, and it has not given up. *)
Theorem start_up_waits_for_the_database (argv : Argv) (ins : list Input) :
  Forall (fun i => match i with Settle _ _ => False | _ => True end) ins ->
  let st := run (boot argv) ins in
  trace st = trace (boot argv) /\
  connections (trace st) = [dbConfig argv] /\
  listeners st = [] /\ server st = Closed /\ crashed st = None.
Proof.
  intros Hins st.
  pose proof (connecting_fields argv) as (Ft & Fl & Fs & Fc & Fp).
  assert (E : exists t, st = set_now t (boot argv)).
  { subst st. change (boot argv) with (connecting argv) in *.
    assert (G : forall s t, s = set_now t (connecting argv) ->
                exists t', run s ins = set_now t' (connecting argv)).
    { induction Hins as [|i ins Hi Hins IH]; intros s t ->.
      - exists t. reflexivity.
      - cbn [run fold_left]. destruct i as [dt|n|n ans| ev data | | e | req];
          try contradiction.
        + rewrite react_tick by exact Fc. apply (IH _ (t + Z.of_N dt)). reflexivity.
        + rewrite (react_waiting (set_now t (connecting argv)) (Fire n) _ Ft Fl Fs Fp I).
          apply (IH _ t). reflexivity.
        + rewrite (react_waiting (set_now t (connecting argv)) (Emit ev data) _
                     Ft Fl Fs Fp I).
          apply (IH _ t). reflexivity.
        + rewrite (react_waiting (set_now t (connecting argv)) Bound _ Ft Fl Fs Fp I).
          apply (IH _ t). reflexivity.
        + rewrite (react_waiting (set_now t (connecting argv)) (BindError e) _
                     Ft Fl Fs Fp I).
          apply (IH _ t). reflexivity.
        + rewrite (react_waiting (set_now t (connecting argv)) (Incoming req) _
                     Ft Fl Fs Fp I).
          apply (IH _ t). reflexivity. }
    apply (G (connecting argv) 0). symmetry. exact (set_now_id (connecting argv)). }
  destruct E as (t & E). clearbody st. rewrite E.
  cbn [set_now trace listeners server crashed].
  refine (conj eq_refl (conj _ (conj Fl (conj Fs Fc)))).
  apply (startup_calls argv _ (inv_boot argv)).
Qed.

(** ** The log at level error *)

(** X11.  The only thing the process logs at level error is the rejection
    of a transfer: in every run, the log lines at that level are as many as
    the transfers rejected, whatever else went wrong. *)
Theorem errors_logged_are_rejected_transfers (argv : Argv) (ins : list Input) :
  let st := run (boot argv) ins in
  errorLines (trace st) = count KKoTransfer (trace st).
Proof.
  intros st. apply (accounted_run argv (boot argv) ins (inv_boot argv) (accounted_boot argv)).
Qed.

End Start.

(** * Examples *)

Local Open Scope list_scope.

(** C1, on the example: a payment emitted before the start-up is over is
    not delivered; the payment of [alice], emitted to the started process
    at time 5, is delivered once and sent back once, at time 1005. *)
Lemma echo_exactly_once_witness :
  let ins := Emit CONDITIONAL_TRANSFER_UNLOCKED_EVENT bob :: exampleStartup
             ++ [Emit CONDITIONAL_TRANSFER_UNLOCKED_EVENT alice; Tick 1000; Fire 0] in
  let st := run tinyLine notFound (boot etherString exampleArgv) ins in
  arrivals tinyLine notFound (boot etherString exampleArgv) ins = [(5, alice)] /\
  deliveries (trace st) = [(5, alice)] /\
  submissions (trace st) =
    [(1005, {| tr_amount := 10 ^ 18; tr_recipient := "0xAAA"%string;
               tr_assetId := AddressZero |})].
Proof.
  intros ins st.
  pose proof (proj1 (echo_exactly_once etherString tinyLine notFound exampleArgv ins)) as D.
  fold st in D.
  split; [vm_compute; reflexivity|].
  split; [rewrite D; vm_compute; reflexivity | vm_compute; reflexivity].
Defined.

(** C3, on the example: once the three promises have resolved, the
    subscription has been made and the server asked to listen, once each. *)
Lemma startup_in_order_witness :
  let tr := trace (run tinyLine notFound (boot etherString exampleArgv) exampleStartup) in
  count KOkBalance tr = 1%nat /\ count KSubscribe tr = 1%nat /\ count KListen tr = 1%nat.
Proof.
  intros tr.
  destruct (startup_in_order etherString tinyLine notFound exampleArgv exampleStartup)
    as (_ & _ & _ & _ & _ & _ & Hs & _ & _ & _ & Hl & _).
  fold tr in Hs, Hl.
  assert (Hb : count KOkBalance tr = 1%nat) by (vm_compute; reflexivity).
  split; [exact Hb|]. split; [rewrite Hs; exact Hb | rewrite Hl, Hs; exact Hb].
Defined.

(** C6, on the example: the server of the started process answers. *)
Lemma status_endpoint_witness :
  let st := run tinyLine notFound (boot etherString exampleArgv) exampleStartup in
  server st = Listening (Some (JNum 7600)) /\
  responses (trace (react tinyLine notFound st (Incoming getRoot))) =
  responses (trace st) ++ [(getRoot, ready)].
Proof.
  intros st.
  assert (H : server st = Listening (Some (JNum 7600))) by (vm_compute; reflexivity).
  split; [exact H|].
  exact (proj1 (status_endpoint etherString tinyLine notFound exampleArgv
                  exampleStartup (Some (JNum 7600)) H)).
Defined.

(** C2, on the example: the echo of the payment of [alice] is rejected for
    lack of funds. *)
Lemma failed_transfer_is_swallowed_witness :
  let st := run tinyLine notFound (boot etherString exampleArgv)
              (exampleStartup
               ++ [Emit CONDITIONAL_TRANSFER_UNLOCKED_EVENT alice; Tick 1000; Fire 0]) in
  let st' := react tinyLine notFound st (Settle 0 noFunds) in
  trace st' =
    trace st ++
    [(1005, OSettled (Transfer exampleClient (requestOf alice))
              (Rejected {| message := "insufficient funds" |}));
     (1005, OLog logger Err
              "Failed to send payment back to 0xAAA: insufficient funds"%string)] /\
  timers st' = [] /\ pending st' = [] /\ crashed st' = None.
Proof.
  intros st st'.
  assert (Hc : crashed st = None) by (vm_compute; reflexivity).
  assert (Hp : option_map transferOf (nth_error (pending st) 0) =
               Some (Some (exampleClient, requestOf alice)))
    by (vm_compute; reflexivity).
  assert (Ha : noFunds _ (Transfer exampleClient (requestOf alice)) =
               Rejected {| message := "insufficient funds" |}) by reflexivity.
  destruct (failed_transfer_is_swallowed etherString tinyLine notFound exampleArgv
              _ 0%nat noFunds exampleClient (requestOf alice) _ Hc Hp Ha)
    as (Ht & Htm & Hpd & _ & _ & Hcr & _).
  fold st in Ht, Htm, Hpd, Hcr. fold st' in Ht, Htm, Hpd, Hcr.
  refine (conj _ (conj _ (conj _ Hcr))).
  - rewrite Ht. vm_compute. reflexivity.
  - rewrite Htm. vm_compute. reflexivity.
  - rewrite Hpd. vm_compute. reflexivity.
Defined.

(** C10, on the example: a payment of a negative amount is echoed as it
    is. *)
Lemma any_payment_is_echoed_witness :
  let st := run tinyLine notFound (boot etherString exampleArgv) exampleStartup in
  submissions
    (trace (run tinyLine notFound st
              [Emit CONDITIONAL_TRANSFER_UNLOCKED_EVENT bob; Tick 1000; Fire 0])) =
  [(1005, {| tr_amount := -5; tr_recipient := "0xBBB"%string;
             tr_assetId := AddressZero |})].
Proof.
  intros st.
  assert (Hc : crashed st = None) by (vm_compute; reflexivity).
  assert (Hs : server st <> Closed) by (vm_compute; discriminate).
  exact (proj1 (any_payment_is_echoed etherString tinyLine notFound exampleArgv
                  exampleStartup bob Hc Hs)).
Defined.

(** C4, on the example: the payment of [alice], delivered at time 5, sets
    a timer for time 1005 and submits nothing. *)
Lemma echo_steps_in_order_witness :
  let st := run tinyLine notFound (boot etherString exampleArgv) exampleStartup in
  let st1 := react tinyLine notFound st (Emit CONDITIONAL_TRANSFER_UNLOCKED_EVENT alice) in
  exists cb,
    timers st1 = [(1005, cb)] /\ submissions (trace st1) = [] /\
    forall s n, nth_error (timers s) n = Some (1005, cb) -> now s < 1005 ->
                react tinyLine notFound s (Fire n) = s.
Proof.
  intros st st1.
  assert (Hc : crashed st = None) by (vm_compute; reflexivity).
  assert (Hs : server st <> Closed) by (vm_compute; discriminate).
  destruct (echo_steps_in_order etherString tinyLine notFound exampleArgv
              exampleStartup alice Hc Hs) as (cl & cb & k & Ht & _ & Hsub & Hearly & _).
  exists cb. exact (conj Ht (conj Hsub Hearly)).
Defined.

(** C5, on the example: the payments of [alice] and [bob] are echoed in
    either order, and the rejection of the first leaves the second in
    flight. *)
Lemma echoes_are_independent_witness :
  let st := run tinyLine notFound (boot etherString exampleArgv) exampleStartup in
  let s := run tinyLine notFound st
             [Emit CONDITIONAL_TRANSFER_UNLOCKED_EVENT alice;
              Emit CONDITIONAL_TRANSFER_UNLOCKED_EVENT bob; Tick 1000] in
  submissions (trace (run tinyLine notFound s [Fire 0; Fire 0])) =
    [(1005, requestOf alice); (1005, requestOf bob)] /\
  submissions (trace (run tinyLine notFound s [Fire 1; Fire 0])) =
    [(1005, requestOf bob); (1005, requestOf alice)] /\
  exists cl,
    map transferOf (pending (run tinyLine notFound s [Fire 0; Fire 0; Settle 0 noFunds])) =
    [Some (cl, requestOf bob)].
Proof.
  intros st s.
  assert (Hc : crashed st = None) by (vm_compute; reflexivity).
  assert (Hs : server st <> Closed) by (vm_compute; discriminate).
  destruct (echoes_are_independent etherString tinyLine notFound exampleArgv
              exampleStartup alice bob Hc Hs)
    as (cl & cb1 & cb2 & _ & H1 & H2 & _ & Hrej & _).
  refine (conj H1 (conj H2 _)).
  exists cl.
  destruct (Hrej noFunds {| message := "insufficient funds" |} eq_refl)
    as (_ & _ & H3 & _).
  exact H3.
Defined.

(** X1, on the example: a POST to [/pay] is answered 404 and logged. *)
Lemma every_request_is_logged_witness :
  let st := run tinyLine notFound (boot etherString exampleArgv) exampleStartup in
  let req := {| req_method := POST; req_path := "/pay" |} in
  exists res,
    trace (react tinyLine notFound st (Incoming req)) =
    trace st ++
    [(5, OResponse req res);
     (5, OLog {| appName := "IndexerService"; component := Some "Server"%string |}
           Debug (trim (tinyLine "tiny" req res)))].
Proof.
  intros st req.
  assert (Hs : server st = Listening (Some (JNum 7600))) by (vm_compute; reflexivity).
  destruct (every_request_is_logged etherString tinyLine notFound exampleArgv
              exampleStartup (Some (JNum 7600)) req Hs) as (res & Ht & _).
  exists res. exact Ht.
Defined.

(** X2, on the example: a GET of [/status] and a POST to [/] are not
    routed, a HEAD and an OPTIONS request for [/] are answered without the
    final handler. *)
Lemma only_the_root_is_routed_witness :
  let st := run tinyLine notFound (boot etherString exampleArgv) exampleStartup in
  let answered req res :=
    responses (trace (react tinyLine notFound st (Incoming req))) = [(req, res)] in
  answered {| req_method := GET; req_path := "/status" |}
           {| statusCode := 404; body := Some "Cannot GET /status"%string |} /\
  answered {| req_method := POST; req_path := "/" |}
           {| statusCode := 404; body := Some "Cannot POST /"%string |} /\
  answered {| req_method := HEAD; req_path := "/" |}
           {| statusCode := 200; body := None |} /\
  answered {| req_method := OPTIONS; req_path := "/" |}
           {| statusCode := 200; body := Some "GET,HEAD"%string |}.
Proof.
  intros st answered.
  assert (Hs : server st = Listening (Some (JNum 7600))) by (vm_compute; reflexivity).
  pose proof (fun req => only_the_root_is_routed etherString tinyLine notFound
                           exampleArgv exampleStartup (Some (JNum 7600)) req Hs) as routed.
  refine (conj _ (conj _ (conj _ _))); apply routed.
Defined.

(** X3, on the example. *)
Lemma database_options_reach_the_connector_witness :
  connections
    (trace (run tinyLine notFound (start etherString (given exampleCommandLine))
              exampleStartup)) =
  [{| db_logging := None;
      db_host := Some (JStr "localhost");
      db_port := Some (JNum 5432);
      db_username := None;
      db_password := None;
      db_database := Some (JStr "indexer") |}].
Proof.
  exact (database_options_reach_the_connector etherString tinyLine notFound
           exampleCommandLine _ _ _ _ exampleStartup eq_refl eq_refl eq_refl eq_refl).
Defined.

(** X4, on the example. *)
Lemma channel_options_reach_the_factory_witness :
  creations
    (trace (run tinyLine notFound (start etherString (given exampleCommandLine))
              exampleStartup)) =
  [{| ch_sequelize := SequelizeHandle 1;
      ch_mnemonic := Some (JStr "test test test");
      ch_ethereumProvider := Some (JStr "http://localhost:8545");
      ch_connextMessaging := None;
      ch_connextNode := Some (JStr "http://localhost:8080");
      ch_logLevel := 1 |}].
Proof.
  rewrite (channel_options_reach_the_factory etherString tinyLine notFound
             exampleCommandLine _ _ _ _ exampleStartup eq_refl eq_refl eq_refl eq_refl).
  vm_compute. reflexivity.
Defined.

(** X5, on the example: no port is given, [listen] is called with 7600;
    and with 8080 when that is the port given. *)
Lemma port_option_reaches_listen_witness :
  let withPort p :=
    {| cl_mnemonic := cl_mnemonic exampleCommandLine;
       cl_ethereum := cl_ethereum exampleCommandLine;
       cl_connextMessaging := cl_connextMessaging exampleCommandLine;
       cl_connextNode := cl_connextNode exampleCommandLine;
       cl_postgresHost := cl_postgresHost exampleCommandLine;
       cl_postgresPort := cl_postgresPort exampleCommandLine;
       cl_postgresUsername := cl_postgresUsername exampleCommandLine;
       cl_postgresPassword := cl_postgresPassword exampleCommandLine;
       cl_postgresDatabase := cl_postgresDatabase exampleCommandLine;
       cl_port := p |} in
  listenCalls
    (trace (run tinyLine notFound (start etherString (given (withPort None)))
              exampleStartup)) = [Some (JNum 7600)] /\
  listenCalls
    (trace (run tinyLine notFound (start etherString (given (withPort (Some 8080))))
              exampleStartup)) = [Some (JNum 8080)].
Proof.
  intros withPort. split.
  - exact (proj1 (port_option_reaches_listen etherString tinyLine notFound
                    (withPort None) _ _ _ _ exampleStartup
                    eq_refl eq_refl eq_refl eq_refl)).
  - exact (proj1 (port_option_reaches_listen etherString tinyLine notFound
                    (withPort (Some 8080)) _ _ _ _ exampleStartup
                    eq_refl eq_refl eq_refl eq_refl)).
Defined.

(** X6, on the example: a rejected echo and a request for a page that
    does not exist leave the server listening. *)
Lemma listening_process_stays_up_witness :
  let more := [Emit CONDITIONAL_TRANSFER_UNLOCKED_EVENT alice; Tick 1000; Fire 0;
               Settle 0 noFunds;
               Incoming {| req_method := DELETE; req_path := "/" |}] in
  let st := run tinyLine notFound
              (run tinyLine notFound (boot etherString exampleArgv) exampleStartup)
              more in
  server st = Listening (Some (JNum 7600)) /\ crashed st = None.
Proof.
  intros more st.
  assert (Hs : server (run tinyLine notFound (boot etherString exampleArgv)
                         exampleStartup) = Listening (Some (JNum 7600)))
    by (vm_compute; reflexivity).
  exact (listening_process_stays_up etherString tinyLine notFound exampleArgv
           exampleStartup more (Some (JNum 7600)) Hs).
Defined.

(** X7, on the example: a payment whose transfer failed is not echoed, and
    a payment unlocked before the free balance is known is lost. *)
Lemma other_events_are_ignored_witness :
  let st := run tinyLine notFound (boot etherString exampleArgv) exampleStartup in
  let early := run tinyLine notFound (boot etherString exampleArgv)
                 [Settle 0 allGood; Settle 0 allGood] in
  react tinyLine notFound st (Emit CONDITIONAL_TRANSFER_FAILED_EVENT alice) = st /\
  react tinyLine notFound early (Emit CONDITIONAL_TRANSFER_UNLOCKED_EVENT alice) = early.
Proof.
  intros st early. split.
  - apply (other_events_are_ignored etherString tinyLine notFound exampleArgv
             exampleStartup CONDITIONAL_TRANSFER_FAILED_EVENT alice).
    left. discriminate.
  - apply (other_events_are_ignored etherString tinyLine notFound exampleArgv
             [Settle 0 allGood; Settle 0 allGood]
             CONDITIONAL_TRANSFER_UNLOCKED_EVENT alice).
    right. vm_compute. reflexivity.
Defined.

(** X8, on the example: the payment of [alice], of one ether. *)
Lemma every_payment_is_announced_witness :
  let st := run tinyLine notFound (boot etherString exampleArgv) exampleStartup in
  trace (react tinyLine notFound st (Emit CONDITIONAL_TRANSFER_UNLOCKED_EVENT alice)) =
  trace st ++
  [(5, ODelivered CONDITIONAL_TRANSFER_UNLOCKED_EVENT alice);
   (5, OLog {| appName := "IndexerService"; component := None |} Info
         "Received payment 0xA1 (1.0 ETH) from 0xAAA"%string);
   (5, OSetTimeout 1000)].
Proof.
  intros st.
  assert (Hc : crashed st = None) by (vm_compute; reflexivity).
  assert (Hs : server st <> Closed) by (vm_compute; discriminate).
  exact (every_payment_is_announced etherString tinyLine notFound exampleArgv
           exampleStartup alice Hc Hs).
Defined.

(** X9, on the example: a day goes by, a payment is unlocked, a request
    arrives; the database has not answered. *)
Lemma start_up_waits_for_the_database_witness :
  let ins := [Tick 86400000; Emit CONDITIONAL_TRANSFER_UNLOCKED_EVENT alice;
              Incoming getRoot; Fire 0; Bound] in
  let st := run tinyLine notFound (boot etherString exampleArgv) ins in
  trace st = trace (boot etherString exampleArgv) /\ server st = Closed /\
  crashed st = None.
Proof.
  intros ins st.
  assert (H : Forall (fun i => match i with Settle _ _ => False | _ => True end) ins)
    by (repeat constructor).
  destruct (start_up_waits_for_the_database etherString tinyLine notFound exampleArgv
              ins H) as (Ht & _ & _ & Hs & Hc).
  exact (conj Ht (conj Hs Hc)).
Defined.
